(** * run-analysis-suite: the Dashboard's metrics, charts and upload tracker

    A shallow embedding of the TypeScript sources
      - [Dashboard] (metrics over [samplePerformanceData], upload state, tabs),
      - [PerformanceChart] (chart element, tick and tooltip formatters),
      - [VideoUploadCard] (file-input and drop handlers),
    followed by the properties the specification states about them.

    JavaScript Numbers are IEEE 754 binary64 values: they are modelled by
    Rocq's primitive [float] (binary64, round to nearest even, one NaN), so
    that every arithmetic step of the source rounds as it does at run time. *)

From Stdlib Require Import ZArith List String Ascii Bool Lia Floats Uint63.
From Stdlib Require DecimalPos DecimalN.
From stdpp Require Import gmap strings.
Import ListNotations.

Set Warnings "-inexact-float".

(* ===================================================================== *)
(** ** The JavaScript built-ins the sources call                          *)
(* ===================================================================== *)

Module JS.

(** A completion of an evaluation: a value, or a thrown error named by its
    class.  None of the embedded functions contains a [throw]; the type is
    what statements of the form "the call fails with E" are measured
    against. *)
Inductive completion (A : Type) : Type :=
| Normal (value : A)
| Throw (error_class : string).
Arguments Normal {A} value.
Arguments Throw {A} error_class.

(** What reading a property of a data entry gives: [undefined], a Number, the
    member of that name inherited from [Object.prototype] (a function, or the
    prototype itself for [__proto__]), or whatever walking a property path
    reaches, which this development does not determine. *)
Inductive value : Type :=
| Undefined
| Num (n : float)
| Member (name : string)
| PathValue (path : string).

(** The names a plain object inherits from [Object.prototype]. *)
Definition Object_prototype_names : list string :=
  [ "constructor"; "__defineGetter__"; "__defineSetter__"; "hasOwnProperty";
    "__lookupGetter__"; "__lookupSetter__"; "isPrototypeOf";
    "propertyIsEnumerable"; "toString"; "valueOf"; "__proto__";
    "toLocaleString" ].

(** [s.includes(c)] for a single character. *)
Fixpoint String_includes_char (s : string) (c : ascii) : bool :=
  match s with
  | EmptyString => false
  | String d s' => Ascii.eqb d c || String_includes_char s' c
  end.

Definition is_pos_zero (x : float) : bool := PrimFloat.Leibniz.eqb x zero.
Definition is_neg_zero (x : float) : bool := PrimFloat.Leibniz.eqb x neg_zero.

(** [Math.max(...coerced)], ECMA-262 21.3.2.24: [highest] starts at -Infinity;
    a NaN argument returns NaN at once; +0 replaces a highest of -0; a larger
    argument replaces highest. *)
Fixpoint Math_max_loop (highest : float) (coerced : list float) : float :=
  match coerced with
  | [] => highest
  | number :: rest =>
      if is_nan number then nan
      else if is_pos_zero number && is_neg_zero highest
           then Math_max_loop zero rest
      else if (highest <? number)%float then Math_max_loop number rest
      else Math_max_loop highest rest
  end.

Definition Math_max (args : list float) : float :=
  Math_max_loop neg_infinity args.

(** [array.reduce(callback, initialValue)]: a left fold from [initialValue]
    (with an initial value, the empty array does not throw). *)
Definition Array_reduce {A B : Type} (callback : B -> A -> B) (initialValue : B)
    (array : list A) : B :=
  fold_left callback array initialValue.

(** [array.length] as a Number (an array length is below 2^32, so exact). *)
Definition Array_length {A : Type} (array : list A) : float :=
  of_uint63 (Uint63.of_Z (Z.of_nat (length array))).

(** [s.startsWith(search)] *)
Definition String_startsWith (s search : string) : bool := String.prefix search s.

(** Decimal digits of a natural number, most significant first; "0" for 0. *)
Fixpoint uint_digits (d : Decimal.uint) : list ascii :=
  match d with
  | Decimal.Nil => []
  | Decimal.D0 d => "0"%char :: uint_digits d
  | Decimal.D1 d => "1"%char :: uint_digits d
  | Decimal.D2 d => "2"%char :: uint_digits d
  | Decimal.D3 d => "3"%char :: uint_digits d
  | Decimal.D4 d => "4"%char :: uint_digits d
  | Decimal.D5 d => "5"%char :: uint_digits d
  | Decimal.D6 d => "6"%char :: uint_digits d
  | Decimal.D7 d => "7"%char :: uint_digits d
  | Decimal.D8 d => "8"%char :: uint_digits d
  | Decimal.D9 d => "9"%char :: uint_digits d
  end.

Definition decimal_digits (n : N) : list ascii := uint_digits (N.to_uint n).

(** The integer [n] for which [n / 10^f - m * 2^e] is closest to zero, the
    larger one on a tie: [floor (m * 2^e * 10^f + 1/2)]. *)
Definition nearest_scaled (m : positive) (e : Z) (f : nat) : N :=
  let num := (Z.pos m * 10 ^ Z.of_nat f * 2 ^ Z.max e 0)%Z in
  let den := (2 ^ Z.max (- e) 0)%Z in
  Z.to_N ((2 * num + den) / (2 * den)).

(** Steps 10-11 of [Number.prototype.toFixed]: the digits of [n], padded on
    the left with zeros to [f + 1] characters, with a point before the last
    [f] of them. *)
Definition fixed_digits (n : N) (f : nat) : list ascii :=
  let m := decimal_digits n in
  match f with
  | O => m
  | S _ =>
      let k := length m in
      let m := if (k <=? f)%nat then repeat "0"%char (f + 1 - k) ++ m else m in
      let k := length m in
      firstn (k - f) m ++ "."%char :: skipn (k - f) m
  end.

Section NumberToString.

(** [Number::toString] (the shortest decimal that reads back as the same
    double) is the host's; the sources use it through template literals
    and, inside [toFixed], for non-finite values and those of magnitude
    1e21 and above. *)
Variable Number_toString : float -> string.

(** [x.toFixed(fractionDigits)], ECMA-262 21.1.3.3, for
    [fractionDigits <= 100] (the sources pass 1 and 3). *)
Definition toFixed (x : float) (fractionDigits : nat) : string :=
  match Prim2SF x with
  | S754_nan | S754_infinity _ => Number_toString x
  | S754_zero _ => string_of_list_ascii (fixed_digits 0 fractionDigits)
  | S754_finite s m e =>
      let sign := if s then "-" else "" in
      if (1e21 <=? abs x)%float then sign +:+ Number_toString (abs x)
      else sign +:+ string_of_list_ascii
                     (fixed_digits (nearest_scaled m e fractionDigits) fractionDigits)
  end.

(** A template literal [`${value}suffix`] over a Number. *)
Definition template_number (value : float) (suffix : string) : string :=
  Number_toString value +:+ suffix.

End NumberToString.

End JS.

(* ===================================================================== *)
(** ** Data: [PerformanceData], the sample array, the four ranges         *)
(* ===================================================================== *)

(** [interface PerformanceData { time; position; velocity }] *)
Record PerformanceData : Type := {
  time : float;
  position : float;
  velocity : float
}.

(** [const samplePerformanceData = [...]] of Dashboard.tsx *)
Definition samplePerformanceData : list PerformanceData :=
  [ {| time := 0.000; position := 0.863; velocity := 0 |};
    {| time := 0.133; position := 0.816; velocity := 0.08857 |};
    {| time := 0.267; position := 0.863; velocity := 0.177 |};
    {| time := 0.400; position := 0.863; velocity := 0.08857 |} ]%float.

Record VideoRange : Type := {
  range : string;
  distance : string;
  key : string
}.

(** [const videoRanges = [...]] of Dashboard.tsx *)
Definition videoRanges : list VideoRange :=
  [ {| range := "Range 1"; distance := "0-25 meters"; key := "0-25" |};
    {| range := "Range 2"; distance := "25-50 meters"; key := "25-50" |};
    {| range := "Range 3"; distance := "50-75 meters"; key := "50-75" |};
    {| range := "Range 4"; distance := "75-100 meters"; key := "75-100" |} ].

Inductive UserRole : Type := admin | coach | runner.

(* ===================================================================== *)
(** ** Dashboard: the three aggregates                                    *)
(* ===================================================================== *)

Record Metrics : Type := {
  maxVelocity : float;
  avgVelocity : float;
  totalDistance : float
}.

(** The three [const]s the Dashboard body computes, as a function of the array
    they read (the Dashboard applies them to [samplePerformanceData]):
<<
  const maxVelocity = Math.max(...data.map(d => d.velocity));
  const avgVelocity = data.reduce((sum, d) => sum + d.velocity, 0) / data.length;
  const totalDistance = Math.max(...data.map(d => d.position));
>> *)
Definition velocitySum (data : list PerformanceData) : float :=
  JS.Array_reduce (fun sum d => (sum + velocity d)%float) 0%float data.

Definition computeMetrics (data : list PerformanceData) : Metrics :=
  {| maxVelocity := JS.Math_max (map velocity data);
     avgVelocity := (velocitySum data / JS.Array_length data)%float;
     totalDistance := JS.Math_max (map position data) |}.

(** No step of the aggregation throws: its evaluation always completes
    normally. *)
Definition eval_computeMetrics (data : list PerformanceData) : JS.completion Metrics :=
  JS.Normal (computeMetrics data).

(* ===================================================================== *)
(** ** PerformanceChart                                                   *)
(* ===================================================================== *)

Module PerformanceChart.

(** [interface PerformanceChartProps].  TypeScript restricts [type] to
    ['line' | 'bar'] and [dataKey] to ['position' | 'velocity']; the types are
    erased at run time, where both are strings. *)
Record Props : Type := {
  data : list PerformanceData;
  title : string;
  type : string;
  dataKey : string
}.

Definition valid_dataKey (dataKey : string) : bool :=
  String.eqb dataKey "position" || String.eqb dataKey "velocity".

(** [const strokeColor = dataKey === 'velocity' ? '#8B8AC4' : '#A2AADB'] *)
Definition strokeColor (dataKey : string) : string :=
  if String.eqb dataKey "velocity" then "#8B8AC4" else "#A2AADB".

(** [dataKey === 'velocity' ? 'm/s' : 'm'] *)
Definition unitSuffix (dataKey : string) : string :=
  if String.eqb dataKey "velocity" then "m/s" else "m".


Section Formatters.

Variable Number_toString : float -> string.

(** The formatters are written twice in the source, once under [LineChart]
    and once under [BarChart], with the same text. *)



(** [<Tooltip labelFormatter={(value) => `Time: ${value}s`} />] *)
Definition Tooltip_labelFormatter (value : float) : string :=
  "Time: " +:+ JS.template_number Number_toString value "s".


End Formatters.

Inductive ChartKind : Type := LineChart | BarChart.

(** The chart element of the rendered card: [type === 'line'] selects
    [LineChart], anything else [BarChart]; both receive [data], an [XAxis]
    keyed by ["time"] and one series ([Line] or [Bar]) keyed by [dataKey]. *)
Record Element : Type := {
  cardTitle : string;
  kind : ChartKind;
  chartData : list PerformanceData;
  xAxisDataKey : string;
  seriesDataKey : string;
  seriesColor : string
}.

Definition render (props : Props) : Element :=
  {| cardTitle := title props;
     kind := if String.eqb (type props) "line" then LineChart else BarChart;
     chartData := data props;
     xAxisDataKey := "time";
     seriesDataKey := dataKey props;
     seriesColor := strokeColor (dataKey props) |}.

(** A key the charting library may read as a path ([a.b], [a[0]]) instead of
    a property name: any string with a "." or a "[". *)
Definition looks_like_path (dataKey : string) : bool :=
  JS.String_includes_char dataKey "."%char || JS.String_includes_char dataKey "["%char.

(** The charting library's read of [dataKey] on an entry, a plain object with
    the own properties [time], [position] and [velocity]: an own property
    gives its Number; a string that may be a path gives what the path walk
    reaches ([JS.PathValue], not determined here); any other string is a
    property name, looked up as [entry[dataKey]] through the prototype chain,
    which gives the inherited member for the names of [Object.prototype] and
    [undefined] otherwise. *)
Definition getValueByDataKey (entry : PerformanceData) (dataKey : string) : JS.value :=
  if String.eqb dataKey "time" then JS.Num (time entry)
  else if String.eqb dataKey "position" then JS.Num (position entry)
  else if String.eqb dataKey "velocity" then JS.Num (velocity entry)
  else if looks_like_path dataKey then JS.PathValue dataKey
  else if existsb (String.eqb dataKey) JS.Object_prototype_names then JS.Member dataKey
  else JS.Undefined.

Record ChartPoint : Type := {
  x : JS.value;
  y : JS.value
}.

(** The points a chart element plots: the charting library reads, for every
    entry of the data in order, [entry[xAxis.dataKey]] and
    [entry[series.dataKey]]. *)
Definition points (el : Element) : list ChartPoint :=
  map (fun entry => {| x := getValueByDataKey entry (xAxisDataKey el);
                       y := getValueByDataKey entry (seriesDataKey el) |})
      (chartData el).

(** The projection of a series on a field: the points of the chart that
    [PerformanceChart] renders for it (the chart kind does not change the
    points). *)
Definition project (series : list PerformanceData) (field : string) : list ChartPoint :=
  points (render {| data := series; title := ""; type := "line"; dataKey := field |}).

(** Rendering contains no [throw]: it completes normally for every field. *)
Definition eval_project (series : list PerformanceData) (field : string)
  : JS.completion (list ChartPoint) :=
  JS.Normal (project series field).

End PerformanceChart.

(* ===================================================================== *)
(** ** VideoUploadCard                                                    *)
(* ===================================================================== *)

Module VideoUploadCard.

(** The two properties of a DOM [File] the sources read. *)
Record File : Type := {
  name : string;
  type : string
}.

(** The data props of a card ([onUpload] is wired by the Dashboard). *)
Record Props : Type := {
  range : string;
  distance : string;
  isUploaded : bool
}.

(** What a handler does: the card's [isDragging] afterwards, whether it
    called [event.preventDefault()], and the files it passed to [onUpload],
    in call order. *)
Record Effect : Type := {
  isDragging : bool;
  defaultPrevented : bool;
  onUpload : list File
}.

(** [if (file && file.type.startsWith('video/')) { onUpload(file); }] where
    [file] is [undefined] when there is no first file. *)
Definition uploadIfVideo (file : option File) : list File :=
  match file with
  | Some file => if JS.String_startsWith (type file) "video/" then [file] else []
  | None => []
  end.

(** [handleFileChange]: [const file = event.target.files?.[0]], where
    [event.target.files] is a [FileList] or [null]. *)
Definition handleFileChange (files : option (list File)) (dragging : bool) : Effect :=
  let file := match files with Some files => head files | None => None end in
  {| isDragging := dragging; defaultPrevented := false; onUpload := uploadIfVideo file |}.

(** [handleDrop]: [preventDefault(); setIsDragging(false);
    const file = event.dataTransfer.files[0]]. *)
Definition handleDrop (files : list File) (dragging : bool) : Effect :=
  let file := head files in
  {| isDragging := false; defaultPrevented := true; onUpload := uploadIfVideo file |}.

(** [handleDragOver]: [preventDefault(); setIsDragging(true)]. *)
Definition handleDragOver (dragging : bool) : Effect :=
  {| isDragging := true; defaultPrevented := true; onUpload := [] |}.

(** [handleDragLeave]: [setIsDragging(false)]. *)
Definition handleDragLeave (dragging : bool) : Effect :=
  {| isDragging := false; defaultPrevented := false; onUpload := [] |}.

(** The DOM events a card listens to. *)
Inductive Event : Type :=
| Change (files : option (list File))
| Drop (files : list File)
| DragOver
| DragLeave.

Definition handle (event : Event) (dragging : bool) : Effect :=
  match event with
  | Change files => handleFileChange files dragging
  | Drop files => handleDrop files dragging
  | DragOver => handleDragOver dragging
  | DragLeave => handleDragLeave dragging
  end.

End VideoUploadCard.

(* ===================================================================== *)
(** ** Dashboard: upload state, event dispatch and the rendered view      *)
(* ===================================================================== *)

Module Dashboard.

(** The data props of a [StatsCard] (the icon is omitted). *)
Record StatsCardProps : Type := {
  title : string;
  value : string;
  unit : string;
  description : string
}.

(** [uploadedVideos] is the Dashboard's [useState<Record<string, boolean>>({})];
    [cards] holds the [isDragging] state of the card mounted for each range key
    ([false] until set); [console] collects the arguments of [console.log]. *)
Record State : Type := {
  uploadedVideos : gmap string bool;
  cards : gmap string bool;
  console : list (string * string)
}.

Definition initial : State :=
  {| uploadedVideos := ∅; cards := ∅; console := [] |}.

(** [uploadedVideos[range.key] || false] *)
Definition isUploaded (st : State) (key : string) : bool :=
  default false (uploadedVideos st !! key).

(** [handleVideoUpload]:
<<
console.log(`Uploading video for ${range}:`, file.name);
setUploadedVideos(prev => ({ ...prev, [range]: true }));
>> *)
Definition handleVideoUpload (range : string) (file : VideoUploadCard.File)
    (st : State) : State :=
  {| uploadedVideos := <[range := true]> (uploadedVideos st);
     cards := cards st;
     console := console st ++
                [("Uploading video for " +:+ range +:+ ":", VideoUploadCard.name file)] |}.

(** An event on the card of range [key]: the card's handler runs, and each of
    its [onUpload(file)] calls is [handleVideoUpload(range.key, file)]. *)
Definition dispatch (st : State) (ev : string * VideoUploadCard.Event) : State :=
  let '(key, event) := ev in
  let eff := VideoUploadCard.handle event (default false (cards st !! key)) in
  fold_left (fun st file => handleVideoUpload key file st)
            (VideoUploadCard.onUpload eff)
            {| uploadedVideos := uploadedVideos st;
               cards := <[key := VideoUploadCard.isDragging eff]> (cards st);
               console := console st |}.

Definition run (events : list (string * VideoUploadCard.Event)) (st : State) : State :=
  fold_left dispatch events st.

(** What the Dashboard renders, tab by tab. *)
Record View : Type := {
  headerRole : UserRole;
  headerUserName : string;
  heading : string;
  subheading : string;
  uploadCards : list VideoUploadCard.Props;
  statsCards : list StatsCardProps;
  charts : list PerformanceChart.Props;
  systemAnalytics : bool
}.

Section Render.

Variable Number_toString : float -> string.

Definition render (userRole : UserRole) (st : State) : View :=
  let metrics := computeMetrics samplePerformanceData in
  {| headerRole := userRole;
     headerUserName := "John Doe";
     heading := match userRole with
                | admin => "System Overview"
                | coach => "Athlete Performance"
                | runner => "My Running Performance"
                end;
     subheading := match userRole with
                   | admin => "Manage all system data and users"
                   | coach => "Monitor and analyze your athletes"
                   | runner => "Track your running progress and performance metrics"
                   end;
     uploadCards :=
       map (fun r => {| VideoUploadCard.range := range r;
                        VideoUploadCard.distance := distance r;
                        VideoUploadCard.isUploaded := isUploaded st (key r) |})
           videoRanges;
     statsCards :=
       [ {| title := "Max Velocity";
            value := JS.toFixed Number_toString (maxVelocity metrics) 3;
            unit := "m/s"; description := "Peak speed achieved" |};
         {| title := "Avg Velocity";
            value := JS.toFixed Number_toString (avgVelocity metrics) 3;
            unit := "m/s"; description := "Average speed" |};
         {| title := "Total Distance";
            value := JS.toFixed Number_toString (totalDistance metrics) 1;
            unit := "m"; description := "Distance covered" |};
         {| title := "Analysis Time";
            value := "0.400";
            unit := "s"; description := "Total analysis duration" |} ];
     charts :=
       [ {| PerformanceChart.data := samplePerformanceData;
            PerformanceChart.title := "Position vs Time";
            PerformanceChart.type := "line";
            PerformanceChart.dataKey := "position" |};
         {| PerformanceChart.data := samplePerformanceData;
            PerformanceChart.title := "Velocity vs Time";
            PerformanceChart.type := "bar";
            PerformanceChart.dataKey := "velocity" |} ];
     systemAnalytics := match userRole with admin => true | _ => false end |}.

End Render.

End Dashboard.

(* ===================================================================== *)
(** ** Exact values of binary64 numbers                                   *)
(* ===================================================================== *)

Module Binary64.

(** Every finite binary64 number is an integer multiple of [2^-1074]:
    [SFvalue] is that integer.  The infinities are placed at [-2^2098] and
    [2^2098], outside the finite range, so that the order of the integers is
    the order of the numbers; NaN gets 0 and is excluded wherever it matters. *)
Definition SFvalue (f : spec_float) : Z :=
  match f with
  | S754_zero _ => 0
  | S754_nan => 0
  | S754_infinity s => if s then - 2 ^ 2098 else 2 ^ 2098
  | S754_finite s m e =>
      let v := (Z.pos m * 2 ^ (e + 1074))%Z in if s then (- v)%Z else v
  end.

Definition value (x : float) : Z := SFvalue (Prim2SF x).

(** [Number.isFinite(x)] *)
Definition isFinite (x : float) : bool :=
  match Prim2SF x with
  | S754_zero _ | S754_finite _ _ _ => true
  | S754_infinity _ | S754_nan => false
  end.

(** [a >= b] of JavaScript: false as soon as an operand is NaN. *)
Definition geb (a b : float) : bool := (b <=? a)%float.

(** The canonical exponent of binary64 for a number of [z] binary digits
    (the [fexp] of the standard library at precision 53, [emin = -1074]). *)
Definition fexp64 (z : Z) : Z := Z.max (z - 53) (-1074).

(** What the final step of a rounding returns for a rounded mantissa [mr] at
    exponent [e1] and sign [s]: a zero, the finite number of that magnitude,
    or an infinity when the magnitude is out of range. *)
Definition rounded (s : bool) (res : spec_float) (mr e1 : Z) : Prop :=
  (mr = 0%Z /\ res = S754_zero s) \/
  (exists m2 e2, res = S754_finite s m2 e2 /\
                 (Z.pos m2 * 2 ^ (e2 + 1074) = mr * 2 ^ (e1 + 1074))%Z) \/
  (res = S754_infinity s /\ (2 ^ 2098 <= mr * 2 ^ (e1 + 1074))%Z).

(** The same, for a rounded magnitude [V] in units of [2^-1074]. *)
Definition rounded_to (s : bool) (res : spec_float) (V : Z) : Prop :=
  (V = 0%Z /\ res = S754_zero s) \/
  (exists m2 e2, res = S754_finite s m2 e2 /\ (Z.pos m2 * 2 ^ (e2 + 1074))%Z = V) \/
  (res = S754_infinity s /\ (2 ^ 2098 <= V)%Z).

(** [Number.isFinite] on the specification side. *)
Definition SFfinite (f : spec_float) : bool :=
  match f with
  | S754_zero _ | S754_finite _ _ _ => true
  | S754_infinity _ | S754_nan => false
  end.

End Binary64.

(* ===================================================================== *)
(** ** The vocabulary of the specification                                *)
(* ===================================================================== *)

Module Spec.

(** "max(v for v in l)": a member of [l] that no member exceeds. *)
Definition is_maximum (l : list float) (m : float) : Prop :=
  In m l /\ forall v, In v l -> Binary64.geb m v = true.

(** "mean(v for v in l)" in binary64 arithmetic: the values added in sequence
    order, divided by their count. *)
Fixpoint sum_from (acc : float) (l : list float) : float :=
  match l with
  | [] => acc
  | v :: l => sum_from (acc + v)%float l
  end.

Definition count (l : list float) : float :=
  of_uint63 (Uint63.of_Z (Z.of_nat (length l))).

Definition mean (l : list float) : float := (sum_from 0 l / count l)%float.

(** A measured value is a Number other than NaN. *)
Definition measured (v : float) : Prop := is_nan v = false.

(** The Series invariant: times strictly increasing. *)
Fixpoint strictly_increasing (l : list float) : bool :=
  match l with
  | [] => true
  | a :: l' =>
      match l' with
      | [] => true
      | b :: _ => (a <? b)%float && strictly_increasing l'
      end
  end.

(** The same for the coordinates of chart points, which must all be Numbers. *)
Fixpoint numbers (l : list JS.value) : option (list float) :=
  match l with
  | [] => Some []
  | JS.Num n :: l => option_map (cons n) (numbers l)
  | JS.Undefined :: _ | JS.Member _ :: _ | JS.PathValue _ :: _ => None
  end.

Definition increasing_numbers (l : list JS.value) : bool :=
  match numbers l with
  | Some ns => strictly_increasing ns
  | None => false
  end.

(** The exact (unrounded) sum of the values, in units of [2^-1074]. *)
Definition exact_sum (l : list float) : Z :=
  fold_right Z.add 0%Z (map Binary64.value l).









(** The first file of the list an upload event carries, if any. *)
Definition first_file (event : VideoUploadCard.Event) : option VideoUploadCard.File :=
  match event with
  | VideoUploadCard.Change (Some files) => head files
  | VideoUploadCard.Drop files => head files
  | _ => None
  end.

End Spec.

(* ===================================================================== *)
(** ** Inputs the statements below are evaluated at                       *)
(* ===================================================================== *)

Module Examples.

(** Three samples of velocity 0.1. *)
Definition tenths : list PerformanceData :=
  [ {| time := 0; position := 0; velocity := 0.1 |};
    {| time := 1; position := 0; velocity := 0.1 |};
    {| time := 2; position := 0; velocity := 0.1 |} ]%float.

Definition mp4 : VideoUploadCard.File :=
  {| VideoUploadCard.name := "sprint.mp4"; VideoUploadCard.type := "video/mp4" |}.

Definition txt : VideoUploadCard.File :=
  {| VideoUploadCard.name := "notes.txt"; VideoUploadCard.type := "text/plain" |}.

(** A host [Number::toString] for statements that do not depend on it. *)
Definition no_toString (x : float) : string := "".

End Examples.

(* ===================================================================== *)
(** ** Index: the login gate around the Dashboard                         *)
(* ===================================================================== *)

Module Index.

(** The page's own state: [isAuthenticated] and [userRole] are its two
    [useState]s; [loginAttempts] collects the objects [handleLogin] writes to
    the console; [dashboard] is the state of the Dashboard component, which
    exists only while the page renders it. *)
Record State : Type := {
  isAuthenticated : bool;
  userRole : UserRole;
  loginAttempts : list (string * string * UserRole);
  dashboard : Dashboard.State
}.

(** [useState(false)], [useState('runner')]; nothing logged, no Dashboard. *)
Definition initial : State :=
  {| isAuthenticated := false; userRole := runner; loginAttempts := [];
     dashboard := Dashboard.initial |}.

(** A Dashboard that has just been mounted (or has been unmounted): its
    [useState]s are at their initial values; the console, which is not
    component state, keeps its lines. *)
Definition remount (d : Dashboard.State) : Dashboard.State :=
  {| Dashboard.uploadedVideos := ∅; Dashboard.cards := ∅;
     Dashboard.console := Dashboard.console d |}.

(** [handleLogin]:
<<
  console.log('Login attempt:', { email, password, role });
  setUserRole(role);
  setIsAuthenticated(true);
>>
    The page then returns [<Dashboard>] where it returned [<LoginForm>]: the
    Dashboard is mounted afresh. *)
Definition handleLogin (email password : string) (role : UserRole) (st : State) : State :=
  {| isAuthenticated := true;
     userRole := role;
     loginAttempts := loginAttempts st ++ [(email, password, role)];
     dashboard := remount (dashboard st) |}.

(** [handleLogout]: [setIsAuthenticated(false); setUserRole('runner')].  The
    page returns [<LoginForm>] again: the Dashboard is unmounted and its state
    is dropped. *)
Definition handleLogout (st : State) : State :=
  {| isAuthenticated := false;
     userRole := runner;
     loginAttempts := loginAttempts st;
     dashboard := remount (dashboard st) |}.

(** What can happen on the page: the login form calls [onLogin], the header's
    button calls [onLogout], a card of the upload tab receives a DOM event. *)
Inductive Event : Type :=
| Login (email password : string) (role : UserRole)
| Logout
| Card (key : string) (event : VideoUploadCard.Event).

(** An event reaches its handler only if the element that raises it is
    rendered: the login form when [!isAuthenticated], the Dashboard (header and
    cards) otherwise. *)
Definition step (st : State) (event : Event) : State :=
  match event with
  | Login email password role =>
      if isAuthenticated st then st else handleLogin email password role st
  | Logout =>
      if isAuthenticated st then handleLogout st else st
  | Card key event =>
      if isAuthenticated st
      then {| isAuthenticated := isAuthenticated st;
              userRole := userRole st;
              loginAttempts := loginAttempts st;
              dashboard := Dashboard.dispatch (dashboard st) (key, event) |}
      else st
  end.

Definition run (events : list Event) (st : State) : State :=
  fold_left step events st.

(** [if (!isAuthenticated) return <LoginForm .../>;
     return <Dashboard userRole={userRole} .../>] *)
Inductive Page : Type :=
| LoginForm
| DashboardPage (view : Dashboard.View).

Definition render (Number_toString : float -> string) (st : State) : Page :=
  if negb (isAuthenticated st) then LoginForm
  else DashboardPage (Dashboard.render Number_toString (userRole st) (dashboard st)).

(** The shape of a logged-out page: role 'runner', no flag, no card state. *)
Definition logged_out_shape (st : State) : Prop :=
  userRole st = runner /\
  Dashboard.uploadedVideos (dashboard st) = ∅ /\
  Dashboard.cards (dashboard st) = ∅.

End Index.

(* ===================================================================== *)
(** ** Reading a sequence of events                                       *)
(* ===================================================================== *)

Module Trace.

(** The calls of [handleVideoUpload(key, file)] an event on the card of [key]
    makes (the handlers' [onUpload] calls do not depend on [isDragging]). *)
Definition uploads (ev : string * VideoUploadCard.Event)
  : list (string * VideoUploadCard.File) :=
  map (pair (fst ev)) (VideoUploadCard.onUpload (VideoUploadCard.handle (snd ev) false)).

(** Some upload of the event is for the key [k]. *)
Definition uploads_to (k : string) (ev : string * VideoUploadCard.Event) : bool :=
  existsb (fun kf => String.eqb (fst kf) k) (uploads ev).

(** The two arguments [handleVideoUpload] passes to [console.log]. *)
Definition logLine (kf : string * VideoUploadCard.File) : string * string :=
  ("Uploading video for " +:+ fst kf +:+ ":", VideoUploadCard.name (snd kf)).

(** [isDragging] of the card of [k]. *)
Definition dragging (st : Dashboard.State) (k : string) : bool :=
  default false (Dashboard.cards st !! k).

End Trace.

(* ===================================================================== *)
(** ** Order of binary64 numbers through their exact values               *)
(* ===================================================================== *)

Module Binary64Facts.
Import Binary64.
Local Open Scope Z_scope.

Lemma digits2_pos_bounds (m : positive) :
  2 ^ (Z.pos (digits2_pos m) - 1) <= Z.pos m < 2 ^ Z.pos (digits2_pos m).
Proof.
  induction m as [m IH | m IH | ]; cbn [digits2_pos].
  - rewrite Pos2Z.inj_succ.
    replace (Z.succ (Z.pos (digits2_pos m)) - 1) with (Z.succ (Z.pos (digits2_pos m) - 1)) by lia.
    rewrite !Z.pow_succ_r by lia. lia.
  - rewrite Pos2Z.inj_succ.
    replace (Z.succ (Z.pos (digits2_pos m)) - 1) with (Z.succ (Z.pos (digits2_pos m) - 1)) by lia.
    rewrite !Z.pow_succ_r by lia. lia.
  - cbn. lia.
Qed.

Lemma valid_finite_bounds s m e :
  valid_binary (S754_finite s m e) = true ->
  -1074 <= e <= 971 /\ Z.pos m < 2 ^ 53 /\ (-1074 < e -> 2 ^ 52 <= Z.pos m).
Proof.
  cbn [SpecFloat.valid_binary]. unfold bounded, canonical_mantissa, fexp, SpecFloat.emin.
  change prec with 53. change emax with 1024.
  intros H. apply andb_prop in H as [Hc He].
  apply Z.eqb_eq in Hc. apply Z.leb_le in He.
  pose proof (digits2_pos_bounds m) as [Hlo Hhi].
  set (d := Z.pos (digits2_pos m)) in *.
  assert (Hd : 0 < d) by (unfold d; lia).
  assert (d <= 53) by lia.
  split; [lia|]. split.
  - eapply Z.lt_le_trans; [exact Hhi|]. apply Z.pow_le_mono_r; lia.
  - intros Hgt. assert (d = 53) by lia.
    replace 52 with (d - 1) by lia. exact Hlo.
Qed.

Lemma finite_scaled_bounds s m e :
  valid_binary (S754_finite s m e) = true ->
  0 < Z.pos m * 2 ^ (e + 1074) < 2 ^ 2098.
Proof.
  intros H. apply valid_finite_bounds in H as (He & Hm & _).
  assert (0 < 2 ^ (e + 1074)) by (apply Z.pow_pos_nonneg; lia).
  split; [lia|].
  apply Z.lt_le_trans with (2 ^ 53 * 2 ^ (e + 1074)).
  - apply Z.mul_lt_mono_pos_r; lia.
  - rewrite <- Z.pow_add_r by lia. apply Z.pow_le_mono_r; lia.
Qed.

Lemma scaled_lt m1 e1 m2 e2 s1 s2 :
  valid_binary (S754_finite s1 m1 e1) = true ->
  valid_binary (S754_finite s2 m2 e2) = true ->
  e1 < e2 ->
  Z.pos m1 * 2 ^ (e1 + 1074) < Z.pos m2 * 2 ^ (e2 + 1074).
Proof.
  intros H1 H2 Hlt.
  apply valid_finite_bounds in H1 as (He1 & Hm1 & _).
  apply valid_finite_bounds in H2 as (He2 & _ & Hm2).
  specialize (Hm2 ltac:(lia)).
  assert (0 < 2 ^ (e1 + 1074)) by (apply Z.pow_pos_nonneg; lia).
  assert (0 < 2 ^ (e2 + 1074)) by (apply Z.pow_pos_nonneg; lia).
  apply Z.lt_le_trans with (2 ^ 53 * 2 ^ (e1 + 1074)).
  - apply Z.mul_lt_mono_pos_r; lia.
  - apply Z.le_trans with (2 ^ 52 * 2 ^ (e2 + 1074)).
    + rewrite <- !Z.pow_add_r by lia. apply Z.pow_le_mono_r; lia.
    + apply Z.mul_le_mono_nonneg_r; lia.
Qed.

Lemma mul_compare_pos (a b p : Z) : 0 < p -> (a * p ?= b * p) = (a ?= b).
Proof.
  intros Hp. destruct (Z.compare_spec a b) as [-> | Hlt | Hgt].
  - apply Z.compare_refl.
  - apply Z.compare_lt_iff. apply Z.mul_lt_mono_pos_r; assumption.
  - apply Z.compare_gt_iff. apply Z.mul_lt_mono_pos_r; assumption.
Qed.

Lemma SFvalue_finite_bounds s m e :
  valid_binary (S754_finite s m e) = true ->
  - 2 ^ 2098 < SFvalue (S754_finite s m e) < 2 ^ 2098 /\
  (if s then SFvalue (S754_finite s m e) < 0 else 0 < SFvalue (S754_finite s m e)).
Proof.
  intros H. apply finite_scaled_bounds in H. cbn [SFvalue].
  set (v := Z.pos m * 2 ^ (e + 1074)) in *. set (B := 2 ^ 2098) in *.
  destruct s; lia.
Qed.

Lemma SFcompare_value (a b : spec_float) :
  valid_binary a = true -> valid_binary b = true ->
  a <> S754_nan -> b <> S754_nan ->
  SFcompare a b = Some (SFvalue a ?= SFvalue b).
Proof.
  intros Va Vb Na Nb.
  assert (HB : 0 < 2 ^ 2098) by (apply Z.pow_pos_nonneg; lia).
  destruct a as [sa | sa | | sa ma ea], b as [sb | sb | | sb mb eb];
    try congruence;
    try (pose proof (SFvalue_finite_bounds _ _ _ Va) as [Ba Sa]);
    try (pose proof (SFvalue_finite_bounds _ _ _ Vb) as [Bb Sb]).
  9: {
    cbn [SFcompare].
    destruct sa, sb.
    - cbn [SFvalue]. destruct (Z.compare_spec ea eb) as [Heq | Hlt | Hgt].
      + subst eb. change (Pos.compare_cont Eq ma mb) with (Pos.compare ma mb).
        f_equal. rewrite Z.compare_opp.
        assert (0 < 2 ^ (ea + 1074)).
        { apply Z.pow_pos_nonneg; [lia|]. apply valid_finite_bounds in Va. lia. }
        rewrite mul_compare_pos by assumption.
        rewrite <- Pos2Z.inj_compare. symmetry. apply Pos.compare_antisym.
      + f_equal. symmetry. apply Z.compare_gt_iff.
        pose proof (scaled_lt _ _ _ _ _ _ Va Vb Hlt). lia.
      + f_equal. symmetry. apply Z.compare_lt_iff.
        pose proof (scaled_lt _ _ _ _ _ _ Vb Va Hgt). lia.
    - f_equal; symmetry; apply Z.compare_lt_iff; lia.
    - f_equal; symmetry; apply Z.compare_gt_iff; lia.
    - cbn [SFvalue]. destruct (Z.compare_spec ea eb) as [Heq | Hlt | Hgt].
      + subst eb. change (Pos.compare_cont Eq ma mb) with (Pos.compare ma mb).
        f_equal. 
        assert (0 < 2 ^ (ea + 1074)).
        { apply Z.pow_pos_nonneg; [lia|]. apply valid_finite_bounds in Va. lia. }
        rewrite mul_compare_pos by assumption.
        rewrite <- Pos2Z.inj_compare. reflexivity.
      + f_equal. symmetry. apply Z.compare_lt_iff.
        exact (scaled_lt _ _ _ _ _ _ Va Vb Hlt).
      + f_equal. symmetry. apply Z.compare_gt_iff.
        pose proof (scaled_lt _ _ _ _ _ _ Vb Va Hgt). lia. }
  all: cbn [SFcompare]; f_equal; symmetry.
  all: try (set (va := SFvalue (S754_finite sa ma ea)) in * );
       try (set (vb := SFvalue (S754_finite sb mb eb)) in * );
       cbn [SFvalue]; set (B := 2 ^ 2098) in *.
  all: repeat match goal with s : bool |- _ => destruct s end.
  all: first [ reflexivity | apply Z.compare_lt_iff; lia | apply Z.compare_gt_iff; lia | apply Z.compare_eq_iff; lia ].
Qed.

Lemma is_nan_Prim2SF (x : float) : is_nan x = true <-> Prim2SF x = S754_nan.
Proof.
  unfold is_nan. rewrite FloatAxioms.eqb_spec. unfold SFeqb.
  destruct (Prim2SF x) as [s | s | | s m e] eqn:E.
  - cbn. split; discriminate.
  - destruct s; cbn; split; discriminate.
  - cbn. split; reflexivity.
  - rewrite SFcompare_value; try congruence;
      try (rewrite <- E; apply Prim2SF_valid).
    rewrite Z.compare_refl. cbn. split; discriminate.
Qed.

Lemma not_nan_Prim2SF (x : float) : is_nan x = false -> Prim2SF x <> S754_nan.
Proof.
  intros H E. apply is_nan_Prim2SF in E. congruence.
Qed.

Lemma compare_value (a b : float) :
  is_nan a = false -> is_nan b = false ->
  SFcompare (Prim2SF a) (Prim2SF b) = Some (value a ?= value b).
Proof.
  intros Ha Hb. apply SFcompare_value;
    auto using Prim2SF_valid, not_nan_Prim2SF.
Qed.

Lemma ltb_value (a b : float) :
  is_nan a = false -> is_nan b = false ->
  (a <? b)%float = (value a <? value b).
Proof.
  intros Ha Hb. rewrite FloatAxioms.ltb_spec. unfold SFltb, Z.ltb.
  rewrite compare_value by assumption. reflexivity.
Qed.

Lemma leb_value (a b : float) :
  is_nan a = false -> is_nan b = false ->
  (a <=? b)%float = (value a <=? value b).
Proof.
  intros Ha Hb. rewrite FloatAxioms.leb_spec. unfold SFleb, Z.leb.
  rewrite compare_value by assumption.
  destruct (value a ?= value b); reflexivity.
Qed.

Lemma geb_value (a b : float) :
  is_nan a = false -> is_nan b = false ->
  geb a b = (value b <=? value a).
Proof. intros Ha Hb. unfold geb. apply leb_value; assumption. Qed.

Lemma isFinite_not_nan (x : float) : isFinite x = true -> is_nan x = false.
Proof.
  unfold isFinite. intros H.
  destruct (is_nan x) eqn:E; [|reflexivity].
  apply is_nan_Prim2SF in E. rewrite E in H. discriminate.
Qed.

(** Only -Infinity sits at the bottom of the order. *)
Lemma value_le_neg_infinity (x : float) :
  is_nan x = false -> value x <= value neg_infinity -> x = neg_infinity.
Proof.
  intros Hn Hle. apply Prim2SF_inj.
  change (Prim2SF neg_infinity) with (S754_infinity true).
  change (value neg_infinity) with (- 2 ^ 2098) in Hle.
  pose proof (not_nan_Prim2SF x Hn) as Hx.
  pose proof (Prim2SF_valid x) as Hv.
  unfold value in Hle.
  assert (HB : 0 < 2 ^ 2098) by (apply Z.pow_pos_nonneg; lia).
  destruct (Prim2SF x) as [s | s | | s m e].
  - cbn [SFvalue] in Hle. lia.
  - destruct s; [reflexivity|]. cbn [SFvalue] in Hle. lia.
  - congruence.
  - pose proof (SFvalue_finite_bounds _ _ _ Hv) as [Hb _]. lia.
Qed.

End Binary64Facts.

(* ===================================================================== *)
(** ** Rounding of binary64 sums and quotients                            *)
(* ===================================================================== *)

(** The standard library specifies the primitive operations by [SFadd] and
    [SFdiv] of [SpecFloat]; the lemmas below follow those definitions for
    non-negative operands and bound the rounded result from above. *)
Module RoundingFacts.
Import Binary64 Binary64Facts.
Local Open Scope Z_scope.

(** [iter_pos], by which the shifts are defined, as [Nat.iter]. *)
Lemma iter_pos_nat {A} (f : A -> A) (p : positive) :
  forall x, SpecFloat.iter_pos f p x = @Nat.iter (Pos.to_nat p) A f x.
Proof.
  induction p as [p IH | p IH |]; intros x; cbn [SpecFloat.iter_pos].
  - rewrite !IH. rewrite Pos2Nat.inj_xI.
    replace (S (2 * Pos.to_nat p))%nat with (Pos.to_nat p + (Pos.to_nat p + 1))%nat by lia.
    rewrite !Nat.iter_add. reflexivity.
  - rewrite !IH. rewrite Pos2Nat.inj_xO.
    replace (2 * Pos.to_nat p)%nat with (Pos.to_nat p + Pos.to_nat p)%nat by lia.
    rewrite Nat.iter_add. reflexivity.
  - reflexivity.
Qed.

Lemma shr_1_m (mrs : shr_record) :
  0 <= shr_m mrs -> shr_m (shr_1 mrs) = shr_m mrs / 2.
Proof.
  destruct mrs as [m r s]. cbn [shr_m shr_1]. intros Hm.
  destruct m as [| p | p]; [reflexivity | | lia].
  destruct p as [p | p |]; cbn [shr_m].
  - rewrite Pos2Z.inj_xI. apply Z.div_unique with 1; lia.
  - rewrite Pos2Z.inj_xO. apply Z.div_unique with 0; lia.
  - reflexivity.
Qed.

Lemma iter_shr_1_m (k : nat) (mrs : shr_record) :
  0 <= shr_m mrs ->
  shr_m (@Nat.iter k shr_record shr_1 mrs) = shr_m mrs / 2 ^ Z.of_nat k.
Proof.
  intros Hm. induction k as [| k IH].
  - cbn. symmetry. apply Z.div_1_r.
  - rewrite Nat.iter_succ. rewrite shr_1_m.
    + rewrite IH. rewrite Nat2Z.inj_succ, Z.pow_succ_r by lia.
      rewrite Z.div_div by (try apply Z.pow_pos_nonneg; lia).
      f_equal. lia.
    + rewrite IH. apply Z.div_pos; [lia | apply Z.pow_pos_nonneg; lia].
Qed.

Lemma shr_spec (mrs : shr_record) (e n : Z) :
  0 <= shr_m mrs ->
  shr_m (fst (shr mrs e n)) = shr_m mrs / 2 ^ Z.max n 0 /\
  snd (shr mrs e n) = e + Z.max n 0.
Proof.
  intros Hm. unfold shr. destruct n as [| p | p]; cbn [fst snd].
  - rewrite Z.div_1_r. split; lia.
  - rewrite iter_pos_nat, iter_shr_1_m by exact Hm.
    rewrite positive_nat_Z. split; [f_equal; f_equal; lia | lia].
  - change (Z.max (Z.neg p) 0) with 0. rewrite Z.div_1_r. split; lia.
Qed.

Lemma shr_no_shift (mrs : shr_record) (e n : Z) : n <= 0 -> shr mrs e n = (mrs, e).
Proof. intros H. unfold shr. destruct n; [reflexivity | lia | reflexivity]. Qed.

Lemma shr_record_of_loc_m m l : shr_m (shr_record_of_loc m l) = m.
Proof. destruct l as [| []]; reflexivity. Qed.

Lemma round_nearest_even_bounds m l :
  m <= round_nearest_even m l <= m + 1.
Proof.
  unfold round_nearest_even. destruct l as [| []]; try lia.
  destruct (Z.even m); lia.
Qed.

Lemma round_exact m : round_nearest_even m (loc_of_shr_record (shr_record_of_loc m loc_Exact)) = m.
Proof. reflexivity. Qed.

Lemma Zdigits2_bounds (m : Z) :
  0 < m -> 0 < Zdigits2 m /\ 2 ^ (Zdigits2 m - 1) <= m < 2 ^ Zdigits2 m.
Proof.
  destruct m as [| p | p]; try lia. intros _. cbn [Zdigits2].
  split; [lia | apply digits2_pos_bounds].
Qed.

Lemma Zdigits2_0 : Zdigits2 0 = 0.
Proof. reflexivity. Qed.

Lemma Zdigits2_nonneg (m : Z) : 0 <= m -> 0 <= Zdigits2 m.
Proof. destruct m; cbn; lia. Qed.

(** [m < 2^k] bounds the number of digits. *)
Lemma Zdigits2_le (m k : Z) : 0 <= m -> 0 <= k -> m < 2 ^ k -> Zdigits2 m <= k.
Proof.
  intros Hm Hk Hlt. destruct (Z.eq_dec m 0) as [-> | Hne]; [cbn; lia|].
  destruct (Zdigits2_bounds m ltac:(lia)) as (Hd & Hlo & _).
  destruct (Z_le_gt_dec (Zdigits2 m) k) as [H | H]; [exact H|].
  assert (2 ^ k <= 2 ^ (Zdigits2 m - 1)) by (apply Z.pow_le_mono_r; lia). lia.
Qed.

Lemma Zdigits2_ge (m k : Z) : 0 <= k -> 2 ^ k <= m -> k + 1 <= Zdigits2 m.
Proof.
  intros Hk Hle.
  assert (0 < 2 ^ k) by (apply Z.pow_pos_nonneg; lia).
  destruct (Zdigits2_bounds m ltac:(lia)) as (Hd & _ & Hhi).
  destruct (Z_le_gt_dec (k + 1) (Zdigits2 m)) as [H' | H']; [exact H'|].
  assert (2 ^ Zdigits2 m <= 2 ^ k) by (apply Z.pow_le_mono_r; lia). lia.
Qed.

Lemma fexp_eq z : fexp prec emax z = fexp64 z.
Proof. reflexivity. Qed.

Lemma shr_fexp_spec (m e : Z) (l : location) :
  0 <= m ->
  let p := Z.max (fexp64 (Zdigits2 m + e) - e) 0 in
  shr_m (fst (shr_fexp prec emax m e l)) = m / 2 ^ p /\
  snd (shr_fexp prec emax m e l) = e + p.
Proof.
  intros Hm p. unfold shr_fexp. rewrite fexp_eq.
  pose proof (shr_spec (shr_record_of_loc m l) e (fexp64 (Zdigits2 m + e) - e)) as H.
  rewrite shr_record_of_loc_m in H. exact (H Hm).
Qed.

(** The mantissa left by the shift to the canonical exponent. *)
Lemma canonical_mantissa_bounds (m e : Z) :
  0 <= m -> e <= fexp64 (Zdigits2 m + e) ->
  let e1 := fexp64 (Zdigits2 m + e) in
  let m1 := m / 2 ^ (e1 - e) in
  0 <= m1 < 2 ^ 53 /\ m1 * 2 ^ (e1 - e) <= m < (m1 + 1) * 2 ^ (e1 - e) /\
  (0 < m -> -1074 < e1 -> 2 ^ 52 <= m1).
Proof.
  intros Hm Hp e1 m1.
  set (p := e1 - e). assert (Hp0 : 0 <= p) by (unfold p, e1; lia).
  assert (H2p : 0 < 2 ^ p) by (apply Z.pow_pos_nonneg; lia).
  assert (Hfloor : m1 * 2 ^ p <= m < (m1 + 1) * 2 ^ p).
  { unfold m1. fold p. pose proof (Z.div_mod m (2 ^ p) ltac:(lia)).
    pose proof (Z.mod_pos_bound m (2 ^ p) ltac:(lia)). nia. }
  assert (Hm1 : 0 <= m1) by (apply Z.div_pos; lia).
  destruct (Z.eq_dec m 0) as [-> | Hne].
  { unfold m1. rewrite Z.div_0_l by lia. repeat split; lia. }
  destruct (Zdigits2_bounds m ltac:(lia)) as (Hd & Hlo & Hhi).
  set (d := Zdigits2 m) in *.
  assert (He1 : d + e - 53 <= e1 /\ -1074 <= e1) by (unfold e1, fexp64; lia).
  split; [split; [exact Hm1|] | split; [lia|]].
  - (* m1 * 2^p <= m < 2^d <= 2^(53+p) *)
    assert (2 ^ d <= 2 ^ (53 + p)) by (apply Z.pow_le_mono_r; unfold p; lia).
    rewrite Z.pow_add_r in H by lia. nia.
  - intros _ Hnorm. assert (Hpd : p = d - 53) by (unfold p, e1, fexp64 in *; lia).
    assert (2 ^ (52 + p) <= m).
    { replace (52 + p) with (d - 1) by lia. exact Hlo. }
    rewrite Z.pow_add_r in H by lia. nia.
Qed.

Lemma binary_round_aux_spec (s : bool) (mx ex : Z) (lx : location) :
  0 <= mx -> ex <= fexp64 (Zdigits2 mx + ex) ->
  let e1 := fexp64 (Zdigits2 mx + ex) in
  let m1 := mx / 2 ^ (e1 - ex) in
  exists mr, m1 <= mr <= m1 + 1 /\
             (lx = loc_Exact -> e1 = ex -> mr = m1) /\
             rounded s (binary_round_aux prec emax s mx ex lx) mr e1.
Proof.
  intros Hmx Hp e1 m1.
  destruct (canonical_mantissa_bounds mx ex Hmx Hp) as ((Hm1lo & Hm1hi) & _ & Hnorm).
  fold e1 in Hm1lo, Hm1hi, Hnorm. fold m1 in Hm1lo, Hm1hi, Hnorm.
  assert (He1 : -1074 <= e1) by (unfold e1, fexp64; lia).
  unfold binary_round_aux.
  pose proof (shr_fexp_spec mx ex lx Hmx) as [Hs1 Hs2]. cbv zeta in Hs1, Hs2.
  fold e1 in Hs1, Hs2. rewrite Z.max_l in Hs1, Hs2 by lia.
  destruct (shr_fexp prec emax mx ex lx) as [mrs' e'] eqn:E1. cbn [fst snd] in Hs1, Hs2.
  fold m1 in Hs1. replace (ex + (e1 - ex)) with e1 in Hs2 by lia. subst e'.
  set (mr := round_nearest_even (shr_m mrs') (loc_of_shr_record mrs')).
  assert (Hmr : m1 <= mr <= m1 + 1).
  { unfold mr. rewrite Hs1. apply round_nearest_even_bounds. }
  exists mr. split; [exact Hmr|]. split.
  { intros -> He. unfold mr. unfold shr_fexp in E1. rewrite fexp_eq in E1. fold e1 in E1.
    rewrite shr_no_shift in E1 by lia. injection E1 as <- _.
    cbn. unfold m1. rewrite He, Z.sub_diag, Z.div_1_r. reflexivity. }
  clearbody mr m1.
  pose proof (shr_fexp_spec mr e1 loc_Exact ltac:(lia)) as [Ht1 Ht2]. cbv zeta in Ht1, Ht2.
  destruct (shr_fexp prec emax mr e1 loc_Exact) as [mrs'' e''] eqn:E2.
  cbn [fst snd] in Ht1, Ht2.
  destruct (Z.eq_dec mr 0) as [Hz | Hnz].
  - left. split; [exact Hz|]. rewrite Hz in Ht1. rewrite Z.div_0_l in Ht1.
    + rewrite Ht1. reflexivity.
    + apply Z.pow_nonzero; lia.
  - right. assert (Hmrpos : 0 < mr) by lia.
    destruct (Z_lt_ge_dec mr (2 ^ 53)) as [Hlt | Hge].
    + (* no second shift *)
      assert (Hd : Zdigits2 mr <= 53) by (apply Zdigits2_le; [clear - Hmrpos; lia | lia | exact Hlt]).
      assert (Hp2 : Z.max (fexp64 (Zdigits2 mr + e1) - e1) 0 = 0)
        by (clear - Hd He1; unfold fexp64; lia).
      rewrite Hp2 in Ht1, Ht2. rewrite Z.div_1_r in Ht1. rewrite Z.add_0_r in Ht2.
      rewrite Ht1, Ht2. destruct mr as [| pm | pm]; try lia.
      change (Z.sub emax prec) with 971.
      destruct (Z.leb_spec e1 971) as [Hle | Hgt].
      * left. exists pm, e1. split; reflexivity.
      * right. split; [reflexivity|].
        assert (Hmxpos : 0 < mx).
        { destruct (Z.eq_dec mx 0) as [Hz | Hz]; [exfalso | clear - Hz Hmx; lia].
          clear - Hz Hgt Hp. subst mx. unfold e1, fexp64 in *. cbn [Zdigits2] in *. lia. }
        assert (2 ^ 52 <= m1) by (apply Hnorm; [exact Hmxpos | clear - Hgt; lia]).
        assert (2 ^ (972 + 1074) <= 2 ^ (e1 + 1074))
          by (apply Z.pow_le_mono_r; clear - Hgt; lia).
        change (2 ^ 2098) with (2 ^ 52 * 2 ^ (972 + 1074)).
        apply Z.mul_le_mono_nonneg; [lia | clear - H Hmr; lia | lia | assumption].
    + (* mr = 2^53: one more shift *)
      assert (Heq : mr = 2 ^ 53) by (clear - Hge Hmr Hm1hi; lia).
      assert (Hd : Zdigits2 mr = 54).
      { rewrite Heq. reflexivity. }
      assert (Hp2 : Z.max (fexp64 (Zdigits2 mr + e1) - e1) 0 = 1)
        by (clear - Hd He1; unfold fexp64; lia).
      rewrite Hp2 in Ht1, Ht2. rewrite Heq in Ht1. change (2 ^ 53 / 2 ^ 1) with (2 ^ 52) in Ht1.
      rewrite Ht1, Ht2. change (2 ^ 52) with (Z.pos (Pos.pow 2 52)).
      change (Z.sub emax prec) with 971.
      destruct (Z.leb_spec (e1 + 1) 971) as [Hle | Hgt].
      * left. exists (Pos.pow 2 52), (e1 + 1). split; [reflexivity|].
        rewrite Heq. replace (e1 + 1 + 1074) with (1 + (e1 + 1074)) by lia.
        rewrite Z.pow_add_r by lia. change (Z.pos (2 ^ 52)) with (2 ^ 52).
        change (2 ^ 53) with (2 ^ 52 * 2 ^ 1). ring.
      * right. split; [reflexivity|]. rewrite Heq.
        assert (2 ^ (971 + 1074) <= 2 ^ (e1 + 1074)) by (apply Z.pow_le_mono_r; lia).
        change (2 ^ 2098) with (2 ^ 53 * 2 ^ (971 + 1074)).
        apply Z.mul_le_mono_nonneg_l; lia.
Qed.

Lemma nat_iter_xO (k : nat) (m : positive) :
  Z.pos (@Nat.iter k positive xO m) = Z.pos m * 2 ^ Z.of_nat k.
Proof.
  induction k as [| k IH].
  - cbn. lia.
  - rewrite Nat.iter_succ, Pos2Z.inj_xO, IH, Nat2Z.inj_succ, Z.pow_succ_r by lia. ring.
Qed.

Lemma iter_xO (m d : positive) : Z.pos (Pos.iter xO m d) = Z.pos m * 2 ^ Z.pos d.
Proof.
  rewrite Pos2Nat.inj_iter.
  change (Z.pos (@Nat.iter (Pos.to_nat d) positive xO m) = Z.pos m * 2 ^ Z.pos d).
  rewrite nat_iter_xO, positive_nat_Z. reflexivity.
Qed.

Lemma shl_align_spec (mx : positive) (ex ex' : Z) :
  let e := Z.min ex ex' in
  shl_align mx ex ex' = (fst (shl_align mx ex ex'), e) /\
  Z.pos (fst (shl_align mx ex ex')) = Z.pos mx * 2 ^ (ex - e).
Proof.
  unfold shl_align. destruct (ex' - ex) as [| d | d] eqn:E; cbn [fst].
  - replace (Z.min ex ex') with ex by lia. rewrite Z.sub_diag. split; [reflexivity | cbn; lia].
  - replace (Z.min ex ex') with ex by lia. rewrite Z.sub_diag. split; [reflexivity | cbn; lia].
  - replace (Z.min ex ex') with ex' by lia. split; [reflexivity|].
    rewrite iter_xO. f_equal. f_equal. lia.
Qed.

Lemma Zdigits2_mul_pow2 (m k : Z) :
  0 < m -> 0 <= k -> Zdigits2 (m * 2 ^ k) = Zdigits2 m + k.
Proof.
  intros Hm Hk. destruct (Zdigits2_bounds m Hm) as (Hd & Hlo & Hhi).
  assert (H2k : 0 < 2 ^ k) by (apply Z.pow_pos_nonneg; lia).
  apply Z.le_antisymm.
  - apply Zdigits2_le; [nia | lia |]. rewrite Z.pow_add_r by lia.
    apply Z.mul_lt_mono_pos_r; assumption.
  - replace (Zdigits2 m + k) with ((Zdigits2 m - 1 + k) + 1) by lia.
    apply Zdigits2_ge; [lia|]. rewrite Z.pow_add_r by lia.
    apply Z.mul_le_mono_nonneg_r; lia.
Qed.

Lemma binary_round_spec (s : bool) (m : positive) (ez : Z) :
  -1074 <= ez ->
  let X := Z.pos m * 2 ^ (ez + 1074) in
  exists V, rounded_to s (binary_round prec emax s m ez) V /\
            0 <= V /\ V * 2 ^ 52 <= X * (2 ^ 52 + 1) /\
            X * 2 ^ 52 <= V * (2 ^ 52 + 1) /\
            (fexp64 (Z.pos (digits2_pos m) + ez) <= ez -> V = X).
Proof.
  intros Hez X. unfold binary_round. rewrite fexp_eq.
  set (d := Z.pos (digits2_pos m)). set (e1 := fexp64 (d + ez)).
  assert (He1 : -1074 <= e1 /\ d + ez - 53 <= e1) by (unfold e1, fexp64; lia).
  destruct (shl_align_spec m ez e1) as [Hs Hmz]. cbv zeta in Hs, Hmz.
  rewrite Hs. set (mz := fst (shl_align m ez e1)) in *. clearbody mz.
  set (ez' := Z.min ez e1) in *.
  assert (Hez' : ez' <= ez /\ ez' <= e1 /\ -1074 <= ez' /\ (ez' = ez \/ ez' = e1))
    by (unfold ez'; lia).
  clearbody ez'.
  assert (HX : Z.pos mz * 2 ^ (ez' + 1074) = X).
  { rewrite Hmz. unfold X. rewrite <- Z.mul_assoc, <- Z.pow_add_r by lia.
    f_equal. f_equal. lia. }
  assert (Hdz : Zdigits2 (Z.pos mz) = d + (ez - ez')).
  { rewrite Hmz. rewrite Zdigits2_mul_pow2 by lia. reflexivity. }
  assert (Hcan : fexp64 (Zdigits2 (Z.pos mz) + ez') = e1).
  { rewrite Hdz. unfold e1. f_equal. lia. }
  assert (Hp : ez' <= fexp64 (Zdigits2 (Z.pos mz) + ez')) by (rewrite Hcan; lia).
  destruct (binary_round_aux_spec s (Z.pos mz) ez' loc_Exact ltac:(lia) Hp)
    as (mr & Hmr & Hexact & Hres).
  destruct (canonical_mantissa_bounds (Z.pos mz) ez' ltac:(lia) Hp)
    as ((Hm1 & _) & Hfloor & Hnorm).
  cbv zeta in Hmr, Hexact, Hres, Hm1, Hfloor, Hnorm. rewrite Hcan in *.
  set (m1 := Z.pos mz / 2 ^ (e1 - ez')) in *. clearbody m1.
  exists (mr * 2 ^ (e1 + 1074)).
  assert (H2e : 0 < 2 ^ (e1 + 1074)) by (apply Z.pow_pos_nonneg; lia).
  assert (H2z : 0 < 2 ^ (ez' + 1074)) by (apply Z.pow_pos_nonneg; lia).
  assert (H2p : 2 ^ (e1 - ez') * 2 ^ (ez' + 1074) = 2 ^ (e1 + 1074)).
  { rewrite <- Z.pow_add_r by lia. f_equal. lia. }
  split.
  { destruct Hres as [[Hz Hr] | [(m2 & e2 & Hr & Hv) | [Hr Hv]]].
    - left. split; [rewrite Hz; lia | exact Hr].
    - right. left. exists m2, e2. split; assumption.
    - right. right. split; assumption. }
  split; [clear - Hmr Hm1 H2e; nia|].
  clear Hres Hs Hp Hcan Hdz Hmz.
  destruct (Z.eq_dec e1 ez') as [Heq | Hneq].
  - (* no shift: exact *)
    specialize (Hexact eq_refl Heq). subst ez'.
    rewrite Z.sub_diag, Z.mul_1_r in Hfloor.
    assert (Hm1z : m1 = Z.pos mz) by (clear - Hfloor; lia).
    assert (HV : mr * 2 ^ (e1 + 1074) = X) by (rewrite Hexact, Hm1z; exact HX).
    rewrite HV.
    assert (0 <= X) by (rewrite <- HX; clear - H2z; nia).
    split; [clear - H; nia|]. split; [clear - H; nia | intros _; reflexivity].
  - assert (Hgt : -1074 < e1 /\ ez' = ez) by (clear - Hez' Hneq; lia).
    assert (Hn : 2 ^ 52 <= m1) by (apply Hnorm; clear - Hgt; lia).
    assert (HXlo : m1 * 2 ^ (e1 + 1074) <= X).
    { rewrite <- HX. rewrite <- H2p, Z.mul_assoc.
      apply Z.mul_le_mono_nonneg_r; [clear - H2z; lia | clear - Hfloor; lia]. }
    assert (HXhi : X < (m1 + 1) * 2 ^ (e1 + 1074)).
    { rewrite <- HX. rewrite <- H2p, Z.mul_assoc.
      apply Z.mul_lt_mono_pos_r; [exact H2z | clear - Hfloor; lia]. }
    set (W := 2 ^ (e1 + 1074)) in *.
    split; [clearbody W; clear - Hmr Hn HXlo H2e; nia|].
    split; [clearbody W; clear - Hmr Hn HXhi H2e; nia|].
    clear - Hgt Hez' Hneq. intros. lia.
Qed.

Lemma rounded_to_finite (s : bool) (res : spec_float) (V : Z) :
  rounded_to s res V -> V < 2 ^ 2098 ->
  SFfinite res = true /\ SFvalue res = if s then - V else V.
Proof.
  intros [[-> ->] | [(m2 & e2 & -> & Hv) | [-> Hinf]]] Hlt.
  - split; [reflexivity | destruct s; reflexivity].
  - split; [reflexivity|]. cbn [SFvalue]. rewrite Hv. reflexivity.
  - lia.
Qed.

(** [binary_normalize m e] is within a relative error of [2^-52] of
    [m * 2^e], unless that is out of range. *)
Lemma binary_normalize_spec (m e : Z) (szero : bool) :
  -1074 <= e ->
  let X := m * 2 ^ (e + 1074) in
  Z.abs X * (2 ^ 52 + 1) < 2 ^ 2098 * 2 ^ 52 ->
  SFfinite (binary_normalize prec emax m e szero) = true /\
  Z.abs (SFvalue (binary_normalize prec emax m e szero) - X) * 2 ^ 52 <= Z.abs X.
Proof.
  intros He X Hno.
  assert (HW : 0 < 2 ^ (e + 1074)) by (apply Z.pow_pos_nonneg; lia).
  destruct m as [| p | p]; cbn [binary_normalize].
  - split; [reflexivity|]. unfold X. cbn [SFvalue]. rewrite Z.mul_0_l. reflexivity.
  - destruct (binary_round_spec false p e He) as (V & Hr & HV0 & Hup & Hlo & _).
    cbv zeta in Hup, Hlo. fold X in Hup, Hlo.
    assert (HX : 0 < X) by (unfold X; apply Z.mul_pos_pos; lia).
    clearbody X. rewrite Z.abs_eq in Hno by lia.
    assert (HV : V < 2 ^ 2098) by lia.
    destruct (rounded_to_finite _ _ _ Hr HV) as [Hf Hv].
    split; [exact Hf|]. rewrite Hv. lia.
  - destruct (binary_round_spec true p e He) as (V & Hr & HV0 & Hup & Hlo & _).
    cbv zeta in Hup, Hlo.
    assert (HX : X = - (Z.pos p * 2 ^ (e + 1074))) by (unfold X; lia).
    set (Y := Z.pos p * 2 ^ (e + 1074)) in *.
    assert (HY : 0 < Y) by (unfold Y; apply Z.mul_pos_pos; lia).
    clearbody X Y. subst X.
    assert (HV : V < 2 ^ 2098) by lia.
    destruct (rounded_to_finite _ _ _ Hr HV) as [Hf Hv].
    split; [exact Hf|]. rewrite Hv. lia.
Qed.

(** [a + b] of two finite numbers is within a relative error of [2^-52] of
    the exact sum, unless that is out of range. *)
Lemma SFadd_finite (a b : spec_float) :
  valid_binary a = true -> valid_binary b = true ->
  SFfinite a = true -> SFfinite b = true ->
  let X := SFvalue a + SFvalue b in
  Z.abs X * (2 ^ 52 + 1) < 2 ^ 2098 * 2 ^ 52 ->
  SFfinite (SFadd prec emax a b) = true /\
  Z.abs (SFvalue (SFadd prec emax a b) - X) * 2 ^ 52 <= Z.abs X.
Proof.
  intros Va Vb Fa Fb X Hno.
  destruct a as [sa | sa | | sa ma ea], b as [sb | sb | | sb mb eb];
    try discriminate.
  - cbn [SFadd]. unfold X. cbn [SFvalue]. destruct sa, sb; split; reflexivity.
  - cbn [SFadd]. split; [reflexivity|]. unfold X.
    replace (SFvalue (S754_zero sa)) with 0 by reflexivity.
    set (v := SFvalue (S754_finite sb mb eb)). clearbody v.
    replace (v - (0 + v)) with 0 by lia. cbn [Z.abs]. lia.
  - cbn [SFadd]. split; [reflexivity|]. unfold X.
    replace (SFvalue (S754_zero sb)) with 0 by reflexivity.
    set (v := SFvalue (S754_finite sa ma ea)). clearbody v.
    replace (v - (v + 0)) with 0 by lia. cbn [Z.abs]. lia.
  - apply valid_finite_bounds in Va as (Hea & _). apply valid_finite_bounds in Vb as (Heb & _).
    cbn [SFadd].
    set (ez := Z.min ea eb).
    destruct (shl_align_spec ma ea ez) as [_ Hma].
    destruct (shl_align_spec mb eb ez) as [_ Hmb].
    cbv zeta in Hma, Hmb.
    replace (Z.min ea ez) with ez in Hma by lia.
    replace (Z.min eb ez) with ez in Hmb by lia.
    set (ma' := fst (shl_align ma ea ez)) in *.
    set (mb' := fst (shl_align mb eb ez)) in *.
    clearbody ma' mb'.
    assert (Ha : Z.pos ma' * 2 ^ (ez + 1074) = Z.pos ma * 2 ^ (ea + 1074)).
    { rewrite Hma, <- Z.mul_assoc, <- Z.pow_add_r by lia. f_equal. f_equal. lia. }
    assert (Hb : Z.pos mb' * 2 ^ (ez + 1074) = Z.pos mb * 2 ^ (eb + 1074)).
    { rewrite Hmb, <- Z.mul_assoc, <- Z.pow_add_r by lia. f_equal. f_equal. lia. }
    set (m := cond_Zopp sa (Z.pos ma') + cond_Zopp sb (Z.pos mb')).
    assert (HX : m * 2 ^ (ez + 1074) = X).
    { unfold X, m. cbn [SFvalue]. rewrite <- Ha, <- Hb.
      set (W := 2 ^ (ez + 1074)). clearbody W.
      destruct sa, sb; unfold cond_Zopp; ring. }
    clearbody m.
    pose proof (binary_normalize_spec m ez false ltac:(lia)) as H.
    cbv zeta in H. rewrite HX in H. exact (H Hno).
Qed.

Lemma fexp64_mono (a b : Z) : a <= b -> fexp64 a <= fexp64 b.
Proof. unfold fexp64. lia. Qed.

(** The integer quotient computed by the division, its exponent, and why the
    pair can be handed to the rounding step. *)
Lemma SFdiv_core_binary_spec (m1 e1 m2 e2 : Z) :
  0 < m1 -> 0 < m2 ->
  exists q e' l,
    SFdiv_core_binary prec emax m1 e1 m2 e2 = (q, e', l) /\
    0 <= q /\ e' <= e1 - e2 /\
    q * m2 <= m1 * 2 ^ (e1 - e2 - e') < (q + 1) * m2 /\
    e' <= fexp64 (Zdigits2 q + e').
Proof.
  intros Hm1 Hm2. unfold SFdiv_core_binary. rewrite fexp_eq.
  set (d1 := Zdigits2 m1). set (d2 := Zdigits2 m2).
  set (e' := Z.min (fexp64 (d1 + e1 - (d2 + e2))) (e1 - e2)).
  set (s := e1 - e2 - e').
  assert (Hs : 0 <= s) by (unfold s, e'; lia).
  set (m' := match s with 0 => m1 | Z.pos _ => Z.shiftl m1 s | Z.neg _ => 0 end).
  assert (Hm' : m' = m1 * 2 ^ s).
  { unfold m'. destruct s as [| p | p] eqn:E.
    - rewrite Z.pow_0_r. lia.
    - apply Z.shiftl_mul_pow2. lia.
    - lia. }
  clearbody m'.
  pose proof (Z_div_mod m' m2 ltac:(lia)) as Hdiv.
  destruct (Z.div_eucl m' m2) as [q r]. destruct Hdiv as [Hqr Hr].
  exists q, e', (new_location m2 r).
  split; [reflexivity|].
  assert (H2s : 0 < 2 ^ s) by (apply Z.pow_pos_nonneg; lia).
  assert (Hm'pos : 0 < m') by (rewrite Hm'; apply Z.mul_pos_pos; assumption).
  assert (Hq : 0 <= q) by (clear - Hqr Hr Hm'pos Hm2; nia).
  split; [exact Hq|]. split; [unfold e'; lia|].
  split; [fold s; rewrite <- Hm'; clear - Hqr Hr; nia|].
  destruct (Zdigits2_bounds m1 Hm1) as (Hd1 & Hlo1 & _).
  destruct (Zdigits2_bounds m2 Hm2) as (Hd2 & _ & Hhi2).
  fold d1 in Hd1, Hlo1. fold d2 in Hd2, Hhi2.
  assert (Hlow : 2 ^ (d1 - 1 + s) <= m').
  { rewrite Hm', Z.pow_add_r by lia. apply Z.mul_le_mono_nonneg_r; lia. }
  destruct (Z.eq_dec q 0) as [-> | Hq0].
  - (* a zero quotient only arises below the subnormal exponent *)
    rewrite Zdigits2_0, Z.add_0_l.
    assert (Hlt : m' < 2 ^ d2) by (clear - Hqr Hr Hhi2; lia).
    assert (Hexp : d1 - 1 + s < d2).
    { destruct (Z_lt_ge_dec (d1 - 1 + s) d2) as [H | H]; [exact H|].
      assert (2 ^ d2 <= 2 ^ (d1 - 1 + s)) by (apply Z.pow_le_mono_r; lia). lia. }
    unfold fexp64 in *. lia.
  - assert (Hdig : d1 + s - d2 <= Zdigits2 q).
    { destruct (Z_lt_ge_dec (d1 - 1 + s - d2) 0) as [Hk | Hk].
      - pose proof (Zdigits2_ge q 0 ltac:(lia) ltac:(rewrite Z.pow_0_r; lia)). lia.
      - set (k := d1 - 1 + s - d2) in *.
        assert (H2k : 2 ^ k * 2 ^ d2 <= m').
        { rewrite <- Z.pow_add_r by lia. replace (k + d2) with (d1 - 1 + s) by (unfold k; lia).
          exact Hlow. }
        assert (H2kpos : 0 < 2 ^ k) by (apply Z.pow_pos_nonneg; lia).
        assert (Hqk : 2 ^ k <= q).
        { clear - H2k Hhi2 Hqr Hr H2kpos Hm2. set (K := 2 ^ k) in *. set (D := 2 ^ d2) in *.
          clearbody K D. nia. }
        pose proof (Zdigits2_ge q k ltac:(lia) Hqk). unfold k in *. lia. }
    apply Z.le_trans with (fexp64 (d1 + e1 - (d2 + e2))); [unfold e'; lia|].
    apply fexp64_mono. unfold s in Hdig. lia.
Qed.

(** [a / b] for a finite [a] and a positive finite [b]: the sign of [a], and
    a magnitude within a relative error of [2^-52] of the exact quotient, or
    within [2^-1074] of it for a subnormal result. *)
Lemma SFdiv_finite (a : spec_float) (mb : positive) (eb : Z) :
  valid_binary a = true -> valid_binary (S754_finite false mb eb) = true ->
  SFfinite a = true ->
  let A := Z.abs (SFvalue a) in
  let B := Z.pos mb * 2 ^ (eb + 1074) in
  let r := SFdiv prec emax a (S754_finite false mb eb) in
  A * 2 ^ 1074 * (2 ^ 52 + 1) + B * 2 ^ 52 < 2 ^ 2098 * (B * 2 ^ 52) ->
  SFfinite r = true /\
  exists R, 0 <= R /\
    SFvalue r = (if SFvalue a <? 0 then - R else R) /\
    R * (B * 2 ^ 52) <= A * 2 ^ 1074 * (2 ^ 52 + 1) + B * 2 ^ 52 /\
    A * 2 ^ 1074 * 2 ^ 52 <= R * (B * (2 ^ 52 + 1)) + B * 2 ^ 52.
Proof.
  intros Va Vb Fa A B r Hno.
  apply valid_finite_bounds in Vb as (Heb & _).
  assert (HE2 : 0 < 2 ^ (eb + 1074)) by (apply Z.pow_pos_nonneg; lia).
  assert (HB : 0 < B) by (unfold B; apply Z.mul_pos_pos; lia).
  assert (HT : 0 < 2 ^ 1074) by (apply Z.pow_pos_nonneg; lia).
  destruct a as [sa | sa | | sa ma ea]; try discriminate.
  - unfold r. cbn [SFdiv]. split; [reflexivity|]. exists 0.
    unfold A. cbn [SFvalue Z.abs Z.ltb Z.compare Z.opp].
    split; [lia|]. split; [reflexivity|].
    clearbody B. split; lia.
  - pose proof (SFvalue_finite_bounds _ _ _ Va) as [_ Hsign].
    apply valid_finite_bounds in Va as (Hea & _).
    assert (HA : A = Z.pos ma * 2 ^ (ea + 1074)).
    { unfold A. cbn [SFvalue] in *. destruct sa; lia. }
    assert (Hneg : (SFvalue (S754_finite sa ma ea) <? 0) = sa).
    { destruct sa; [apply Z.ltb_lt | apply Z.ltb_ge]; lia. }
    rewrite Hneg. clear Hsign Hneg. clearbody A. subst A.
    unfold r. cbn [SFdiv]. rewrite xorb_false_r.
    destruct (SFdiv_core_binary_spec (Z.pos ma) ea (Z.pos mb) eb ltac:(lia) ltac:(lia))
      as (q & e' & l & -> & Hq & He' & (Hqm & Hqm') & Hcan).
    destruct (binary_round_aux_spec sa q e' l Hq Hcan) as (mr & Hmr & _ & Hres).
    destruct (canonical_mantissa_bounds q e' Hq Hcan) as ((Hm1 & _) & (Hfloor & Hfloor') & Hnorm).
    cbv zeta in Hmr, Hres, Hm1, Hfloor, Hfloor', Hnorm.
    set (e1 := fexp64 (Zdigits2 q + e')) in *.
    assert (He1 : -1074 <= e1) by (unfold e1, fexp64; lia).
    assert (Hzero : q = 0 -> e1 = -1074).
    { intros Hz. unfold e1 in *. rewrite Hz, Zdigits2_0 in *. unfold fexp64 in *. lia. }
    clearbody e1.
    set (m1 := q / 2 ^ (e1 - e')) in *. clearbody m1.
    set (W := 2 ^ (e1 + 1074)) in *.
    assert (HW : 0 < W) by (apply Z.pow_pos_nonneg; lia).
    set (P := 2 ^ (e1 - e')) in *.
    assert (HP : 0 < P) by (apply Z.pow_pos_nonneg; lia).
    set (Sh := 2 ^ (ea - eb - e')) in *.
    assert (HSh : 0 < Sh) by (apply Z.pow_pos_nonneg; lia).
    set (E1 := 2 ^ (ea + 1074)) in *.
    assert (HE1 : 0 < E1) by (apply Z.pow_pos_nonneg; lia).
    assert (Hrel : W * Sh * 2 ^ (eb + 1074) = P * E1 * 2 ^ 1074).
    { unfold W, Sh, P, E1. rewrite <- !Z.pow_add_r by lia. f_equal. lia. }
    set (E2 := 2 ^ (eb + 1074)) in *.
    set (T := 2 ^ 1074) in *.
    assert (HW1 : e1 = -1074 -> W = 1) by (intros Hsub; unfold W; rewrite Hsub; reflexivity).
    assert (Hnormal : e1 <> -1074 -> 2 ^ 52 <= m1).
    { intros Hn. apply Hnorm; [|lia].
      destruct (Z.eq_dec q 0) as [Hz | Hz]; [exfalso; apply Hn, Hzero, Hz | lia]. }
    clear Hnorm Hzero.
    (* the truncated quotient against the exact one *)
    assert (Hquot : m1 * W * B <= Z.pos ma * E1 * T < (m1 + 1) * W * B).
    { unfold B. clearbody W P Sh E1 E2 T.
      assert (H1 : m1 * P * Z.pos mb <= Z.pos ma * Sh) by (clear - Hfloor Hqm; nia).
      assert (H1' : Z.pos ma * Sh < (m1 + 1) * P * Z.pos mb) by (clear - Hfloor' Hqm'; nia).
      assert (HWE : 0 < W * E2) by (clear - HW HE2; nia).
      assert (H2 : m1 * P * Z.pos mb * (W * E2) <= Z.pos ma * Sh * (W * E2)).
      { apply Z.mul_le_mono_nonneg_r; [lia | exact H1]. }
      assert (H2' : Z.pos ma * Sh * (W * E2) < (m1 + 1) * P * Z.pos mb * (W * E2)).
      { apply Z.mul_lt_mono_pos_r; assumption. }
      assert (Heq : Z.pos ma * Sh * (W * E2) = P * (Z.pos ma * E1 * T)).
      { replace (Z.pos ma * Sh * (W * E2)) with (Z.pos ma * (W * Sh * E2)) by ring.
        rewrite Hrel. ring. }
      rewrite Heq in H2, H2'.
      replace (m1 * P * Z.pos mb * (W * E2)) with (P * (m1 * W * (Z.pos mb * E2))) in H2 by ring.
      replace ((m1 + 1) * P * Z.pos mb * (W * E2))
        with (P * ((m1 + 1) * W * (Z.pos mb * E2))) in H2' by ring.
      apply Z.mul_le_mono_pos_l in H2; [|exact HP].
      apply Z.mul_lt_mono_pos_l in H2'; [|exact HP].
      split; assumption. }
    set (V := Z.pos ma * E1 * T) in *.
    assert (Hbounds : mr * W * (B * 2 ^ 52) <= V * (2 ^ 52 + 1) + B * 2 ^ 52 /\
                      V * 2 ^ 52 <= mr * W * (B * (2 ^ 52 + 1)) + B * 2 ^ 52).
    { destruct (Z.eq_dec e1 (-1074)) as [Hsub | Hnsub].
      - rewrite (HW1 Hsub) in *. clearbody B V. clear - Hmr Hquot HB Hm1. nia.
      - specialize (Hnormal Hnsub).
        clearbody B V W. clear - Hmr Hquot HB Hnormal HW.
        assert (HWB : 0 < W * B) by nia.
        assert (H1 : mr * 2 ^ 52 <= m1 * (2 ^ 52 + 1)) by lia.
        assert (H2 : mr * 2 ^ 52 * (W * B) <= m1 * (2 ^ 52 + 1) * (W * B)).
        { apply Z.mul_le_mono_nonneg_r; [lia | assumption]. }
        assert (H3 : (m1 + 1) * 2 ^ 52 <= mr * (2 ^ 52 + 1)) by lia.
        assert (H4 : (m1 + 1) * 2 ^ 52 * (W * B) <= mr * (2 ^ 52 + 1) * (W * B)).
        { apply Z.mul_le_mono_nonneg_r; [lia | assumption]. }
        split; nia. }
    destruct Hbounds as [Hup Hlo].
    assert (Hmr0 : 0 <= mr * W) by (clear - Hmr Hm1 HW; nia).
    destruct Hres as [[Hz Hr] | [(m2 & e2 & Hr & Hv) | [Hr Hv]]]; rewrite Hr.
    + split; [reflexivity|]. exists 0. cbn [SFvalue].
      rewrite Hz, Z.mul_0_l in Hup, Hlo.
      split; [lia|]. split; [destruct sa; reflexivity|]. split; assumption.
    + split; [reflexivity|]. exists (mr * W). cbn [SFvalue]. rewrite Hv.
      split; [exact Hmr0|]. split; [reflexivity|]. split; assumption.
    + exfalso. fold W in Hv.
      assert (2 ^ 2098 * (B * 2 ^ 52) <= mr * W * (B * 2 ^ 52)).
      { apply Z.mul_le_mono_nonneg_r; [clear - HB; lia | exact Hv]. }
      clear - H Hup Hno. lia.
Qed.

End RoundingFacts.

(* ===================================================================== *)
(** ** [Math.max] returns a maximum                                       *)
(* ===================================================================== *)

Module MathMaxFacts.
Import Binary64 Binary64Facts.
Local Open Scope Z_scope.

Lemma is_pos_zero_eq (x : float) : JS.is_pos_zero x = true -> x = zero.
Proof. apply FloatAxioms.Leibniz.eqb_spec. Qed.

Lemma is_neg_zero_eq (x : float) : JS.is_neg_zero x = true -> x = neg_zero.
Proof. apply FloatAxioms.Leibniz.eqb_spec. Qed.

(** The loop invariant: the running [highest] is never NaN, is the initial one
    or an argument already seen, and bounds both from above. *)
Lemma Math_max_loop_spec (coerced : list float) :
  forall highest : float,
    is_nan highest = false ->
    Forall Spec.measured coerced ->
    let r := JS.Math_max_loop highest coerced in
    is_nan r = false /\ (r = highest \/ In r coerced) /\
    value highest <= value r /\
    Forall (fun v => value v <= value r) coerced.
Proof.
  induction coerced as [| number rest IH]; intros highest Hh Hall; cbn zeta.
  - cbn [JS.Math_max_loop].
    split; [exact Hh|]. split; [left; reflexivity|]. split; [lia | constructor].
  - apply Forall_cons_iff in Hall as [Hn Hrest]. unfold Spec.measured in Hn.
    cbn [JS.Math_max_loop]. rewrite Hn.
    destruct (JS.is_pos_zero number && JS.is_neg_zero highest) eqn:Hz.
    + apply andb_prop in Hz as [Hp Hm].
      apply is_pos_zero_eq in Hp. apply is_neg_zero_eq in Hm. subst number highest.
      destruct (IH zero eq_refl Hrest) as (Hr & Hin & Hle & Hfa).
      change (value zero) with 0 in *. change (value neg_zero) with 0.
      split; [exact Hr|]. split; [|split].
      * destruct Hin as [-> | Hin]; right; [left; reflexivity | right; exact Hin].
      * exact Hle.
      * apply Forall_cons_iff; split; [exact Hle | exact Hfa].
    + rewrite ltb_value by assumption.
      destruct (value highest <? value number) eqn:Hlt.
      * apply Z.ltb_lt in Hlt.
        destruct (IH number Hn Hrest) as (Hr & Hin & Hle & Hfa).
        split; [exact Hr|]. split; [|split].
        -- destruct Hin as [-> | Hin]; right; [left; reflexivity | right; exact Hin].
        -- lia.
        -- apply Forall_cons_iff; split; [exact Hle | exact Hfa].
      * apply Z.ltb_ge in Hlt.
        destruct (IH highest Hh Hrest) as (Hr & Hin & Hle & Hfa).
        split; [exact Hr|]. split; [|split].
        -- destruct Hin as [-> | Hin]; [left; reflexivity | right; right; exact Hin].
        -- exact Hle.
        -- apply Forall_cons_iff; split; [lia | exact Hfa].
Qed.

Lemma Math_max_is_maximum (args : list float) :
  args <> [] -> Forall Spec.measured args ->
  Spec.is_maximum args (JS.Math_max args).
Proof.
  intros Hne Hall. unfold JS.Math_max.
  destruct (Math_max_loop_spec args neg_infinity eq_refl Hall) as (Hr & Hin & _ & Hfa).
  cbn zeta in *. set (r := JS.Math_max_loop neg_infinity args) in *.
  split.
  - destruct Hin as [Heq | Hin]; [|exact Hin].
    destruct args as [| a rest]; [congruence|].
    apply Forall_cons_iff in Hfa as [Ha _].
    apply Forall_cons_iff in Hall as [Hna _].
    rewrite Heq in Ha. apply value_le_neg_infinity in Ha; [|exact Hna].
    rewrite Heq, <- Ha. left; reflexivity.
  - intros v Hv.
    rewrite List.Forall_forall in Hfa, Hall.
    rewrite geb_value; [apply Z.leb_le, Hfa, Hv | exact Hr | apply Hall, Hv].
Qed.

Lemma Math_max_value_bound (args : list float) :
  Forall Spec.measured args ->
  is_nan (JS.Math_max args) = false /\
  Forall (fun v => value v <= value (JS.Math_max args)) args.
Proof.
  intros Hall.
  destruct (Math_max_loop_spec args neg_infinity eq_refl Hall) as (Hr & _ & _ & Hfa).
  split; assumption.
Qed.

End MathMaxFacts.

(* ===================================================================== *)
(** ** The Metrics Aggregator                                             *)
(* ===================================================================== *)

Module AggregatorFacts.
Import Binary64 Binary64Facts MathMaxFacts.

Lemma reduce_sum_from (data : list PerformanceData) :
  forall acc : float,
    JS.Array_reduce (fun sum d => (sum + velocity d)%float) acc data
    = Spec.sum_from acc (map velocity data).
Proof.
  unfold JS.Array_reduce.
  induction data as [| d data IH]; intros acc; cbn; [reflexivity | apply IH].
Qed.

Lemma Array_length_count (data : list PerformanceData) :
  JS.Array_length data = Spec.count (map velocity data).
Proof. unfold JS.Array_length, Spec.count. rewrite length_map. reflexivity. Qed.

Lemma avgVelocity_mean (data : list PerformanceData) :
  avgVelocity (computeMetrics data) = Spec.mean (map velocity data).
Proof.
  cbn [computeMetrics avgVelocity]. unfold velocitySum, Spec.mean.
  rewrite reduce_sum_from, Array_length_count. reflexivity.
Qed.

(** A first sample of velocity 0 adds nothing to the sum and one to the count. *)
Lemma avgVelocity_leading_zero (s0 : PerformanceData) (rest : list PerformanceData) :
  velocity s0 = 0%float ->
  avgVelocity (computeMetrics (s0 :: rest))
  = (velocitySum rest / JS.Array_length (s0 :: rest))%float.
Proof.
  intros Hz. cbn [computeMetrics avgVelocity]. f_equal.
  unfold velocitySum, JS.Array_reduce. cbn [fold_left]. rewrite Hz. reflexivity.
Qed.

Lemma measured_fields (field : PerformanceData -> float) (data : list PerformanceData) :
  Forall (fun s => Spec.measured (field s)) data ->
  Forall Spec.measured (map field data).
Proof. intros H. apply List.Forall_map. exact H. Qed.

Lemma exact_sum_bound (l : list float) (B : Z) :
  Forall (fun v => (value v <= B)%Z) l ->
  (Spec.exact_sum l <= Z.of_nat (length l) * B)%Z.
Proof.
  unfold Spec.exact_sum.
  induction 1 as [| v l Hv _ IH]; cbn [map fold_right length]; [lia|].
  rewrite Nat2Z.inj_succ. lia.
Qed.

End AggregatorFacts.

(* ===================================================================== *)
(** ** How far rounding can lift the average                              *)
(* ===================================================================== *)

Module AverageFacts.
Import Binary64 Binary64Facts RoundingFacts MathMaxFacts.
Local Open Scope Z_scope.

(** [a + b] of two finite Numbers: finite unless the sum is out of range, and
    within a relative error of [2^-52] of the exact sum. *)
Lemma add_finite (a b : float) :
  isFinite a = true -> isFinite b = true ->
  Z.abs (value a + value b) * (2 ^ 52 + 1) < 2 ^ 2098 * 2 ^ 52 ->
  isFinite (a + b) = true /\
  Z.abs (value (a + b) - (value a + value b)) * 2 ^ 52 <= Z.abs (value a + value b).
Proof.
  intros Fa Fb Hno.
  pose proof (SFadd_finite (Prim2SF a) (Prim2SF b) (Prim2SF_valid a) (Prim2SF_valid b)
                Fa Fb Hno) as H.
  change (SFadd prec emax) with SF64add in H.
  rewrite <- FloatAxioms.add_spec in H. exact H.
Qed.

(** [array.length] of a non-empty array is its element count, exactly. *)
Lemma Array_length_Prim2SF {A : Type} (array : list A) :
  0 < Z.of_nat (length array) < 2 ^ 53 ->
  exists m e, Prim2SF (JS.Array_length array) = S754_finite false m e /\
              Z.pos m * 2 ^ (e + 1074) = Z.of_nat (length array) * 2 ^ 1074.
Proof.
  intros Hn. unfold JS.Array_length. rewrite of_uint63_spec, Uint63.of_Z_spec.
  rewrite Z.mod_small by (split; [lia|]; apply Z.lt_trans with (2 ^ 53); [lia | reflexivity]).
  set (n := Z.of_nat (length array)) in *. clearbody n.
  destruct n as [| p | p]; try lia.
  cbn [binary_normalize].
  destruct (binary_round_spec false p 0 ltac:(lia)) as (V & Hr & _ & _ & _ & Hexact).
  cbv zeta in Hexact. rewrite Z.add_0_l in Hexact.
  assert (HV : V = Z.pos p * 2 ^ 1074).
  { apply Hexact. pose proof (Zdigits2_le (Z.pos p) 53 ltac:(lia) ltac:(lia) ltac:(lia)) as Hd.
    cbn [Zdigits2] in Hd. unfold fexp64. lia. }
  assert (HT : 0 < 2 ^ 1074) by (apply Z.pow_pos_nonneg; lia).
  assert (Hlt : V < 2 ^ 2098).
  { rewrite HV. apply Z.lt_le_trans with (2 ^ 53 * 2 ^ 1074).
    - apply Z.mul_lt_mono_pos_r; lia.
    - rewrite <- Z.pow_add_r by lia. apply Z.pow_le_mono_r; lia. }
  destruct Hr as [[Hz _] | [(m2 & e2 & Hr & Hv) | [_ Hinf]]].
  - rewrite HV in Hz. lia.
  - exists m2, e2. split; [exact Hr | rewrite Hv; exact HV].
  - lia.
Qed.

(** [a / array.length] for a finite [a]: within a relative error of [2^-52]
    of the exact quotient, or within [2^-1074] of it for a subnormal result. *)
Lemma div_length_finite {A : Type} (a : float) (array : list A) :
  isFinite a = true ->
  let n := Z.of_nat (length array) in
  0 < n < 2 ^ 53 ->
  Z.abs (value a) * (2 ^ 52 + 1) + n * 2 ^ 52 < 2 ^ 2098 * (n * 2 ^ 52) ->
  isFinite (a / JS.Array_length array) = true /\
  Z.abs (value (a / JS.Array_length array) * (n * 2 ^ 52) - value a * 2 ^ 52)
  <= Z.abs (value a) + n * 2 ^ 52.
Proof.
  intros Fa n Hn Hno.
  destruct (Array_length_Prim2SF array Hn) as (mb & eb & Hb & Hvb). fold n in Hvb.
  pose proof (Prim2SF_valid (JS.Array_length array)) as Vb. rewrite Hb in Vb.
  assert (HT : 0 < 2 ^ 1074) by (apply Z.pow_pos_nonneg; lia).
  pose proof (SFdiv_finite (Prim2SF a) mb eb (Prim2SF_valid a) Vb Fa) as Hdiv.
  cbv zeta in Hdiv. rewrite Hvb in Hdiv. rewrite <- Hb in Hdiv.
  change (SFdiv prec emax) with SF64div in Hdiv.
  rewrite <- FloatAxioms.div_spec in Hdiv.
  fold (value a) in Hdiv. fold (value (a / JS.Array_length array)) in Hdiv.
  change (SFfinite (Prim2SF (a / JS.Array_length array)))
    with (isFinite (a / JS.Array_length array)) in Hdiv.
  set (T := 2 ^ 1074) in *. set (q := value (a / JS.Array_length array)) in *.
  set (va := value a) in *. set (U := 2 ^ 52) in *.
  assert (HU : 2 <= U) by (unfold U; lia).
  destruct Hdiv as (Hf & R & HR & Hq & Hup & Hlo).
  { replace (Z.abs va * T * (U + 1) + n * T * U) with (T * (Z.abs va * (U + 1) + n * U)) by ring.
    replace (2 ^ 2098 * (n * T * U)) with (T * (2 ^ 2098 * (n * U))) by ring.
    apply Z.mul_lt_mono_pos_l; assumption. }
  split; [exact Hf|].
  replace (R * (n * T * U)) with (T * (R * (n * U))) in Hup by ring.
  replace (Z.abs va * T * (U + 1) + n * T * U)
    with (T * (Z.abs va * (U + 1) + n * U)) in Hup by ring.
  apply Z.mul_le_mono_pos_l in Hup; [|exact HT].
  replace (Z.abs va * T * U) with (T * (Z.abs va * U)) in Hlo by ring.
  replace (R * (n * T * (U + 1)) + n * T * U)
    with (T * (R * (n * (U + 1)) + n * U)) in Hlo by ring.
  apply Z.mul_le_mono_pos_l in Hlo; [|exact HT].
  (* the magnitudes: | R n U - |a| U | <= |a| + n U *)
  assert (Hmag : Z.abs (R * (n * U) - Z.abs va * U) <= Z.abs va + n * U).
  { set (a' := Z.abs va) in *. assert (Ha' : 0 <= a') by (unfold a'; lia).
    clearbody a' U T q. clear - Hup Hlo HR Ha' HU Hn.
    assert (H1 : R * (n * U) - a' * U <= a' + n * U) by lia.
    assert (H2 : a' * U - R * (n * U) <= a' + n * U).
    { assert (H3 : (a' * U - n * U) * U <= R * (n * (U + 1)) * U).
      { apply Z.mul_le_mono_nonneg_r; lia. }
      assert (H4 : (a' * U - a' - n * U) * (U + 1) <= (a' * U - n * U) * U) by nia.
      assert (H5 : (a' * U - a' - n * U) * (U + 1) <= R * (n * U) * (U + 1)) by lia.
      apply Z.mul_le_mono_pos_r in H5; lia. }
    lia. }
  destruct (Z.ltb_spec va 0) as [Hneg | Hpos]; rewrite Hq.
  - rewrite (Z.abs_neq va) in * by lia.
    replace (- R * (n * U) - va * U) with (- (R * (n * U) - - va * U)) by ring.
    rewrite Z.abs_opp. exact Hmag.
  - rewrite (Z.abs_eq va) in * by lia. exact Hmag.
Qed.

(** The running sum after [k] additions: its magnitude stays within
    [k * A * (1 + k * 2^-52)] and its distance to the exact sum [E] within
    [k^2 * A * 2^-52], when no value exceeds [A] in magnitude. *)
Lemma sum_from_error (A : Z) (l : list float) :
  forall (acc : float) (k E : Z),
    0 <= A -> 0 <= k ->
    isFinite acc = true ->
    Z.abs (value acc) * 2 ^ 52 <= k * A * (2 ^ 52 + k) ->
    Z.abs (value acc - E) * 2 ^ 52 <= k * k * A ->
    Forall (fun v => isFinite v = true /\ Z.abs (value v) <= A) l ->
    k + Z.of_nat (length l) <= 2 ^ 52 ->
    4 * (k + Z.of_nat (length l)) * A <= 2 ^ 2098 ->
    let s := Spec.sum_from acc l in
    let n := k + Z.of_nat (length l) in
    isFinite s = true /\
    Z.abs (value s) * 2 ^ 52 <= n * A * (2 ^ 52 + n) /\
    Z.abs (value s - (E + Spec.exact_sum l)) * 2 ^ 52 <= n * n * A.
Proof.
  induction l as [| v l IH]; intros acc k E HA Hk Fa Hacc Herr Hall Hlen Hno; cbv zeta.
  - cbn [Spec.sum_from length]. unfold Spec.exact_sum. cbn [map fold_right].
    rewrite !Z.add_0_r. split; [exact Fa|]. split; [exact Hacc | exact Herr].
  - apply Forall_cons_iff in Hall as [(Fv & Hv) Hall].
    cbn [Spec.sum_from]. cbn [length] in Hlen, Hno |- *.
    rewrite Nat2Z.inj_succ in Hlen, Hno |- *.
    replace (Spec.exact_sum (v :: l)) with (value v + Spec.exact_sum l) by reflexivity.
    set (len := Z.of_nat (length l)) in *.
    assert (Hl0 : 0 <= len) by (unfold len; lia). clearbody len.
    set (U := 2 ^ 52) in *. assert (HU : 2 <= U) by (unfold U; lia).
    set (B := 2 ^ 2098) in *.
    assert (HB : 0 < B) by (unfold B; apply Z.pow_pos_nonneg; lia).
    set (va := value acc) in *. set (vv := value v) in *.
    assert (Hk1 : k + 1 <= U) by lia.
    assert (HkA : 4 * (k + 1) * A <= B).
    { apply Z.le_trans with (4 * (k + Z.succ len) * A); [|exact Hno].
      apply Z.mul_le_mono_nonneg_r; lia. }
    pose proof (Z.abs_triangle va vv) as HX.
    set (aX := Z.abs (va + vv)) in *.
    set (ava := Z.abs va) in *. set (avv := Z.abs vv) in *.
    assert (Hava0 : 0 <= ava) by (unfold ava; lia).
    assert (Hava : ava <= 2 * k * A).
    { assert (k * A * (U + k) <= k * A * (2 * U)).
      { apply Z.mul_le_mono_nonneg_l; [apply Z.mul_nonneg_nonneg; lia | lia]. }
      assert (ava * U <= (2 * k * A) * U) by lia.
      apply Z.mul_le_mono_pos_r in H0; lia. }
    assert (HaX : aX <= (2 * k + 1) * A) by lia.
    assert (Hsum : aX * (U + 1) < B * U).
    { assert (H2 : aX * (U + 1) <= (2 * k + 1) * A * (U + 1)).
      { apply Z.mul_le_mono_nonneg_r; lia. }
      assert (H3 : 0 <= (2 * k + 1) * A) by (apply Z.mul_nonneg_nonneg; lia).
      assert (H4 : (2 * k + 1) * A * (U + 1) <= (2 * k + 1) * A * (2 * U)).
      { apply Z.mul_le_mono_nonneg_l; lia. }
      assert (H6 : 4 * (2 * k + 1) * A + 4 * A <= 2 * B) by lia.
      clearbody U B aX. clear - H2 H4 H6 HU HA HB Hk. nia. }
    destruct (add_finite acc v Fa Fv Hsum) as (Fs & Hs).
    fold va vv U aX in Hs.
    set (vs := value (acc + v)) in *.
    pose proof (Z.abs_triangle (vs - (va + vv)) (va + vv)) as Htri.
    replace (vs - (va + vv) + (va + vv)) with vs in Htri by ring.
    pose proof (Z.abs_triangle (vs - (va + vv)) (va - E)) as Htri2.
    replace (vs - (va + vv) + (va - E)) with (vs - (E + vv)) in Htri2 by ring.
    fold aX in Htri.
    set (d := Z.abs (vs - (va + vv))) in *.
    set (avs := Z.abs vs) in *.
    set (e0 := Z.abs (va - E)) in *.
    set (e1 := Z.abs (vs - (E + vv))) in *.
    assert (Hd0 : 0 <= d) by (unfold d; lia).
    assert (Hnext : avs * U <= (k + 1) * A * (U + (k + 1))).
    { clearbody avs d aX ava avv U. clear - Hs Htri HX Hacc Hv HA Hk Hk1 HU Hava0 Hd0.
      assert (H00 : avs * U <= (d + aX) * U) by (apply Z.mul_le_mono_nonneg_r; lia).
      assert (H0 : avs * U <= aX * (U + 1)) by lia.
      assert (H01 : aX * U <= (ava + A) * U) by (apply Z.mul_le_mono_nonneg_r; lia).
      assert (H02 : avs * U * U <= aX * (U + 1) * U) by (apply Z.mul_le_mono_nonneg_r; lia).
      assert (H03 : aX * U * (U + 1) <= (ava + A) * U * (U + 1)) by (apply Z.mul_le_mono_nonneg_r; lia).
      assert (H1 : avs * U * U <= (ava * U + A * U) * (U + 1)) by lia.
      assert (H2 : ava * U + A * U <= k * A * (U + k) + A * U) by lia.
      assert (H3 : (ava * U + A * U) * (U + 1) <= (k * A * (U + k) + A * U) * (U + 1)).
      { apply Z.mul_le_mono_nonneg_r; lia. }
      assert (H4 : (k * A * (U + k) + A * U) * (U + 1) <= (k + 1) * A * (U + (k + 1)) * U).
      { assert (A * (k * k) <= A * (k * U)).
        { apply Z.mul_le_mono_nonneg_l; [lia|]. apply Z.mul_le_mono_nonneg_l; lia. }
        nia. }
      assert (H5 : avs * U * U <= (k + 1) * A * (U + (k + 1)) * U) by lia.
      apply Z.mul_le_mono_pos_r in H5; lia. }
    assert (Herr' : e1 * U <= (k + 1) * (k + 1) * A).
    { clearbody e1 e0 d aX U. clear - Htri2 Hs Herr HaX HU.
      assert (H0 : e1 * U <= (d + e0) * U) by (apply Z.mul_le_mono_nonneg_r; lia).
      lia. }
    destruct (IH (acc + v)%float (k + 1) (E + vv) HA ltac:(lia) Fs Hnext Herr' Hall ltac:(lia))
      as (F & Hb & He).
    { replace (k + 1 + len) with (k + Z.succ len) by lia. exact Hno. }
    cbv zeta in Hb, He.
    replace (k + Z.succ len) with (k + 1 + len) by lia.
    replace (E + (vv + Spec.exact_sum l)) with (E + vv + Spec.exact_sum l) by ring.
    split; [exact F|]. split; [exact Hb | exact He].
Qed.

End AverageFacts.

(** C1 (as stated, refuted): on the empty series the aggregation does not fail
    with EmptySeriesError or any other error; it completes normally, and NaN
    and -Infinity reach the caller. *)
Lemma computeMetrics_empty_completes_with_nan :
  (~ exists e, eval_computeMetrics [] = JS.Throw e) /\
  is_nan (avgVelocity (computeMetrics [])) = true /\
  maxVelocity (computeMetrics []) = neg_infinity.
Proof.
  split; [| split; reflexivity].
  intros [e He]. discriminate He.
Qed.

(** C1 (amended): for the empty series the aggregation raises no error: it
    completes normally with maxVelocity = -Infinity, avgVelocity = NaN and
    totalDistance = -Infinity. *)
Theorem computeMetrics_empty :
  eval_computeMetrics [] =
  JS.Normal {| maxVelocity := neg_infinity; avgVelocity := nan;
               totalDistance := neg_infinity |}.
Proof. reflexivity. Qed.

(** C2: for a non-empty series of measured (non-NaN) samples, maxVelocity is
    the maximum of the velocities, avgVelocity is their mean over all samples
    (a leading sample of velocity 0 stays in the count), and totalDistance is
    the maximum of the positions. *)
Theorem computeMetrics_max_mean (S : list PerformanceData) :
  S <> [] ->
  Forall (fun s => Spec.measured (velocity s)) S ->
  Forall (fun s => Spec.measured (position s)) S ->
  Spec.is_maximum (map velocity S) (maxVelocity (computeMetrics S)) /\
  avgVelocity (computeMetrics S) = Spec.mean (map velocity S) /\
  (forall s0 rest, S = s0 :: rest -> velocity s0 = 0%float ->
     avgVelocity (computeMetrics S) = (velocitySum rest / JS.Array_length S)%float) /\
  Spec.is_maximum (map position S) (totalDistance (computeMetrics S)).
Proof.
  intros Hne Hv Hp.
  assert (Hmap : forall field : PerformanceData -> float, map field S <> []).
  { intros field E. apply map_eq_nil in E. contradiction. }
  split; [| split; [| split]].
  - apply MathMaxFacts.Math_max_is_maximum;
      [apply Hmap | apply AggregatorFacts.measured_fields, Hv].
  - apply AggregatorFacts.avgVelocity_mean.
  - intros s0 rest -> Hz. apply AggregatorFacts.avgVelocity_leading_zero, Hz.
  - apply MathMaxFacts.Math_max_is_maximum;
      [apply Hmap | apply AggregatorFacts.measured_fields, Hp].
Qed.

(** The statement above at the Dashboard's own array. *)
Lemma computeMetrics_max_mean_sample :
  let S := samplePerformanceData in
  S <> [] /\
  Forall (fun s => Spec.measured (velocity s)) S /\
  Forall (fun s => Spec.measured (position s)) S /\
  Spec.is_maximum (map velocity S) (maxVelocity (computeMetrics S)) /\
  avgVelocity (computeMetrics S) = Spec.mean (map velocity S) /\
  (forall s0 rest, S = s0 :: rest -> velocity s0 = 0%float ->
     avgVelocity (computeMetrics S) = (velocitySum rest / JS.Array_length S)%float) /\
  Spec.is_maximum (map position S) (totalDistance (computeMetrics S)).
Proof.
  cbv zeta.
  assert (Hne : samplePerformanceData <> []) by discriminate.
  assert (Hv : Forall (fun s => Spec.measured (velocity s)) samplePerformanceData)
    by (repeat constructor).
  assert (Hp : Forall (fun s => Spec.measured (position s)) samplePerformanceData)
    by (repeat constructor).
  split; [exact Hne|]. split; [exact Hv|]. split; [exact Hp|].
  exact (computeMetrics_max_mean samplePerformanceData Hne Hv Hp).
Defined.


(** C3 (as stated, refuted): on the four-sample array the average velocity is
    not 0.08879 to five decimals: it lies below 0.08854, outside
    [0.088785, 0.088795]. *)
Lemma computeMetrics_sample_avg_not_0_08879 :
  let avg := avgVelocity (computeMetrics samplePerformanceData) in
  ((0.088785 <=? avg) && (avg <=? 0.088795))%float = false /\
  (avg <? 0.08854)%float = true.
Proof. vm_compute. split; reflexivity. Qed.

(** C3 (amended): on the four-sample array maxVelocity = 0.177,
    avgVelocity = 0.088534999999999989 (0.08853 to five decimals, shown as
    0.089 at three), totalDistance = 0.863, and the four cards show 0.177,
    0.089, 0.9 and the literal 0.400. *)
Theorem computeMetrics_sample (Number_toString : float -> string)
    (userRole : UserRole) (st : Dashboard.State) :
  computeMetrics samplePerformanceData =
  {| maxVelocity := 0.177; avgVelocity := 0.088534999999999989;
     totalDistance := 0.863 |}%float /\
  JS.toFixed Number_toString (avgVelocity (computeMetrics samplePerformanceData)) 5
  = "0.08853" /\
  JS.toFixed Number_toString (avgVelocity (computeMetrics samplePerformanceData)) 3
  = "0.089" /\
  map Dashboard.value (Dashboard.statsCards (Dashboard.render Number_toString userRole st))
  = ["0.177"; "0.089"; "0.9"; "0.400"].
Proof. repeat split; vm_compute; reflexivity. Qed.

(** C4 (as stated, refuted): for three samples of velocity 0.1 the rounded
    average 0.10000000000000002 exceeds the maximum 0.1. *)
Lemma maxVelocity_lt_avgVelocity_tenths :
  let M := computeMetrics Examples.tenths in
  Examples.tenths <> [] /\
  Binary64.geb (maxVelocity M) (avgVelocity M) = false /\
  (maxVelocity M <? avgVelocity M)%float = true.
Proof. vm_compute. repeat split; discriminate. Qed.

(** C4 (amended): for a non-empty series of finite velocities the exact
    arithmetic mean of the velocities never exceeds maxVelocity.  The
    avgVelocity the code computes is that mean after one binary64 rounding
    per addition and one for the division: for a series of n <= 2^52
    velocities of magnitude at most A, with 4 * n * A in range, it is finite,
    within (n + 2) * 2^-52 * A + 2^-1074 of the exact mean, and therefore
      avgVelocity <= maxVelocity + (n + 2) * 2^-52 * A + 2^-1074,
    so it can exceed maxVelocity, but only by rounding ([value] counts in
    units of 2^-1074).  On the Dashboard's own [samplePerformanceData],
    maxVelocity >= avgVelocity holds. *)
Theorem maxVelocity_bounds_avgVelocity (S : list PerformanceData) (A : Z) :
  S <> [] ->
  Forall (fun s => Binary64.isFinite (velocity s) = true) S ->
  let M := computeMetrics S in
  let n := Z.of_nat (length S) in
  (Spec.exact_sum (map velocity S) <= n * Binary64.value (maxVelocity M))%Z /\
  ((n <= 2 ^ 52)%Z ->
   Forall (fun s => (Z.abs (Binary64.value (velocity s)) <= A)%Z) S ->
   (4 * n * A <= 2 ^ 2098)%Z ->
   Binary64.isFinite (avgVelocity M) = true /\
   (Z.abs (n * (2 ^ 52 * Binary64.value (avgVelocity M))
           - 2 ^ 52 * Spec.exact_sum (map velocity S))
    <= n * ((n + 2) * A + 2 ^ 52))%Z /\
   (2 ^ 52 * Binary64.value (avgVelocity M)
    <= 2 ^ 52 * Binary64.value (maxVelocity M) + (n + 2) * A + 2 ^ 52)%Z) /\
  (S = samplePerformanceData ->
   Binary64.geb (maxVelocity M) (avgVelocity M) = true).
Proof.
  intros Hne Hfin M n.
  assert (Hmeasured : Forall Spec.measured (map velocity S)).
  { apply AggregatorFacts.measured_fields.
    eapply List.Forall_impl; [| exact Hfin].
    intros s. apply Binary64Facts.isFinite_not_nan. }
  destruct (MathMaxFacts.Math_max_value_bound _ Hmeasured) as [_ Hbound].
  assert (Hn0 : (0 < n)%Z).
  { unfold n. destruct S; [congruence | cbn [length]; lia]. }
  assert (Hexact : (Spec.exact_sum (map velocity S)
                    <= n * Binary64.value (maxVelocity M))%Z).
  { pose proof (AggregatorFacts.exact_sum_bound _ _ Hbound) as H.
    rewrite length_map in H. exact H. }
  split; [exact Hexact | split].
  - intros Hn Hall HnoA.
    cbn [M computeMetrics maxVelocity avgVelocity] in Hexact |- *.
    set (max := JS.Math_max (map velocity S)) in *.
    assert (HA : (0 <= A)%Z).
    { destruct S as [| s0 S']; [congruence|].
      apply Forall_cons_iff in Hall as [H0 _]. lia. }
    rewrite List.Forall_forall in Hall, Hfin.
    assert (Hvals : Forall (fun v => Binary64.isFinite v = true /\
                                      (Z.abs (Binary64.value v) <= A)%Z)
                           (map velocity S)).
    { apply List.Forall_forall. intros v Hv.
      apply in_map_iff in Hv as (s & <- & Hs).
      split; [apply Hfin, Hs | apply Hall, Hs]. }
    pose proof (AverageFacts.sum_from_error A (map velocity S) 0%float 0%Z 0%Z
                  HA (Z.le_refl 0) eq_refl) as Hsum.
    rewrite length_map in Hsum. fold n in Hsum. rewrite !Z.add_0_l in Hsum.
    specialize (Hsum ltac:(change (Binary64.value 0) with 0%Z; cbn [Z.abs]; lia)
                     ltac:(change (Binary64.value 0) with 0%Z; cbn [Z.sub Z.opp Z.add Z.abs]; lia)
                     Hvals Hn HnoA).
    cbv zeta in Hsum.
    rewrite <- (AggregatorFacts.reduce_sum_from S 0%float) in Hsum.
    fold (velocitySum S) in Hsum.
    destruct Hsum as (Fs & Hs & He).
    set (E := Spec.exact_sum (map velocity S)) in *.
    set (vs := Binary64.value (velocitySum S)) in *.
    set (vm := Binary64.value max) in *.
    assert (HB : (4 < 2 ^ 2098)%Z) by (apply Z.ltb_lt; vm_compute; reflexivity).
    assert (H53 : (2 ^ 52 < 2 ^ 53)%Z) by (apply Z.ltb_lt; vm_compute; reflexivity).
    assert (HU : (2 <= 2 ^ 52)%Z) by (apply Z.leb_le; vm_compute; reflexivity).
    set (U := (2 ^ 52)%Z) in *. set (B := (2 ^ 2098)%Z) in *.
    set (avs := Z.abs vs) in *.
    assert (Havs0 : (0 <= avs)%Z) by (unfold avs; lia).
    assert (Havs : (avs <= 2 * n * A)%Z).
    { assert (H1 : (n * A * (U + n) <= n * A * (2 * U))%Z).
      { apply Z.mul_le_mono_nonneg_l; [apply Z.mul_nonneg_nonneg; lia | lia]. }
      assert (H2 : (avs * U <= 2 * n * A * U)%Z) by lia.
      apply Z.mul_le_mono_pos_r in H2; lia. }
    destruct (AverageFacts.div_length_finite (velocitySum S) S Fs) as (Fq & Hq).
    + fold n. lia.
    + fold n vs U B avs.
      assert (H3 : (avs * (U + 1) <= 2 * n * A * (U + 1))%Z).
      { apply Z.mul_le_mono_nonneg_r; lia. }
      assert (H4 : (0 <= n * A)%Z) by (apply Z.mul_nonneg_nonneg; lia).
      clearbody U B avs n. clear - H3 H4 HnoA Hn0 HU HB. nia.
    + fold n vs U avs in Hq.
      split; [exact Fq|].
      set (q := Binary64.value (velocitySum S / JS.Array_length S)) in *.
      assert (Hdist : (Z.abs (n * (U * q) - U * E) <= n * ((n + 2) * A + U))%Z).
      { pose proof (Z.abs_triangle (q * (n * U) - vs * U) ((vs - E) * U)) as Htri.
        replace (q * (n * U) - vs * U + (vs - E) * U)%Z
          with (n * (U * q) - U * E)%Z in Htri by ring.
        rewrite (Z.abs_mul (vs - E) U), (Z.abs_eq U) in Htri by lia.
        set (d1 := Z.abs (q * (n * U) - vs * U)) in *.
        set (d2 := Z.abs (vs - E)) in *.
        set (d := Z.abs (n * (U * q) - U * E)) in *.
        clearbody d d1 d2 U avs n. clear - Htri Hq He Havs. nia. }
      split; [exact Hdist|].
      assert (Hup : (n * (U * q) <= n * (U * vm + (n + 2) * A + U))%Z).
      { assert (H1 : (U * E <= U * (n * vm))%Z) by (apply Z.mul_le_mono_nonneg_l; lia).
        set (d := Z.abs (n * (U * q) - U * E)) in *.
        assert (H2 : (n * (U * q) - U * E <= d)%Z) by (unfold d; lia).
        clearbody d U n. clear - H1 H2 Hdist. nia. }
      apply Z.mul_le_mono_pos_l in Hup; [exact Hup | exact Hn0].
  - intros ->. vm_compute. reflexivity.
Qed.

(** The statement above at the Dashboard's own array, whose velocities are
    below 0.25 = 2^1072 * 2^-1074. *)
Lemma maxVelocity_bounds_avgVelocity_sample :
  let S := samplePerformanceData in
  let A := (2 ^ 1072)%Z in
  let M := computeMetrics S in
  let n := Z.of_nat (length S) in
  S <> [] /\
  Forall (fun s => Binary64.isFinite (velocity s) = true) S /\
  (Spec.exact_sum (map velocity S) <= n * Binary64.value (maxVelocity M))%Z /\
  (n <= 2 ^ 52)%Z /\
  Forall (fun s => (Z.abs (Binary64.value (velocity s)) <= A)%Z) S /\
  (4 * n * A <= 2 ^ 2098)%Z /\
  Binary64.isFinite (avgVelocity M) = true /\
  (Z.abs (n * (2 ^ 52 * Binary64.value (avgVelocity M))
          - 2 ^ 52 * Spec.exact_sum (map velocity S))
   <= n * ((n + 2) * A + 2 ^ 52))%Z /\
  (2 ^ 52 * Binary64.value (avgVelocity M)
   <= 2 ^ 52 * Binary64.value (maxVelocity M) + (n + 2) * A + 2 ^ 52)%Z /\
  Binary64.geb (maxVelocity M) (avgVelocity M) = true.
Proof.
  cbv zeta.
  assert (Hne : samplePerformanceData <> []) by discriminate.
  assert (Hfin : Forall (fun s => Binary64.isFinite (velocity s) = true) samplePerformanceData)
    by (repeat constructor).
  assert (Hn : (Z.of_nat (length samplePerformanceData) <= 2 ^ 52)%Z)
    by (apply Z.leb_le; vm_compute; reflexivity).
  assert (Hall : Forall (fun s => (Z.abs (Binary64.value (velocity s)) <= 2 ^ 1072)%Z)
                        samplePerformanceData).
  { repeat (constructor; [apply Z.leb_le; vm_compute; reflexivity|]). constructor. }
  assert (HnoA : (4 * Z.of_nat (length samplePerformanceData) * 2 ^ 1072 <= 2 ^ 2098)%Z)
    by (apply Z.leb_le; vm_compute; reflexivity).
  destruct (maxVelocity_bounds_avgVelocity samplePerformanceData (2 ^ 1072) Hne Hfin)
    as (Hexact & Hround & Hsample).
  destruct (Hround Hn Hall HnoA) as (Hf & Hd & Hb).
  split; [exact Hne|]. split; [exact Hfin|]. split; [exact Hexact|].
  split; [exact Hn|]. split; [exact Hall|]. split; [exact HnoA|].
  split; [exact Hf|]. split; [exact Hd|].
  split; [exact Hb | exact (Hsample eq_refl)].
Defined.

(* ===================================================================== *)
(** ** The Chart Projector                                                *)
(* ===================================================================== *)

Module ChartFacts.
Import PerformanceChart.

(** The projection is a [map] over the series: x is always the time. *)
Lemma project_map (S : list PerformanceData) (field : string) :
  project S field =
  map (fun entry => {| x := JS.Num (time entry); y := getValueByDataKey entry field |}) S.
Proof. reflexivity. Qed.

Lemma project_length (S : list PerformanceData) (field : string) :
  length (project S field) = length S.
Proof. rewrite project_map. apply length_map. Qed.

Lemma project_x (S : list PerformanceData) (field : string) :
  map x (project S field) = map (fun s => JS.Num (time s)) S.
Proof. rewrite project_map, map_map. reflexivity. Qed.

Lemma project_y (S : list PerformanceData) (field : string) :
  map y (project S field) = map (fun s => getValueByDataKey s field) S.
Proof. rewrite project_map, map_map. reflexivity. Qed.

Lemma numbers_Num (l : list float) : Spec.numbers (map JS.Num l) = Some l.
Proof.
  induction l as [| n l IH]; cbn [map Spec.numbers]; [reflexivity|].
  rewrite IH. reflexivity.
Qed.

Lemma increasing_times (S : list PerformanceData) (field : string) :
  Spec.increasing_numbers (map x (project S field))
  = Spec.strictly_increasing (map time S).
Proof.
  rewrite project_x, <- (map_map time JS.Num).
  unfold Spec.increasing_numbers. rewrite numbers_Num. reflexivity.
Qed.

(** How a selector outside the two variants is read. *)
Lemma getValueByDataKey_unrecognized (entry : PerformanceData) (field : string) :
  valid_dataKey field = false ->
  getValueByDataKey entry field
  = if String.eqb field "time" then JS.Num (time entry)
    else if looks_like_path field then JS.PathValue field
    else if existsb (String.eqb field) JS.Object_prototype_names then JS.Member field
    else JS.Undefined.
Proof.
  unfold valid_dataKey, getValueByDataKey. intros Hv.
  apply orb_false_elim in Hv as [Hp Hvel]. rewrite Hp, Hvel. reflexivity.
Qed.


End ChartFacts.

(** C5: the position and the velocity projections each hold one point per
    sample, in the order of the series; their x values are the sample times,
    the same in both, and increase strictly when the times of the series do. *)
Theorem project_one_point_per_sample (S : list PerformanceData) :
  Spec.strictly_increasing (map time S) = true ->
  length (PerformanceChart.project S "position") = length S /\
  length (PerformanceChart.project S "velocity") = length S /\
  map PerformanceChart.x (PerformanceChart.project S "position")
  = map (fun s => JS.Num (time s)) S /\
  map PerformanceChart.x (PerformanceChart.project S "velocity")
  = map PerformanceChart.x (PerformanceChart.project S "position") /\
  map PerformanceChart.y (PerformanceChart.project S "position")
  = map (fun s => JS.Num (position s)) S /\
  map PerformanceChart.y (PerformanceChart.project S "velocity")
  = map (fun s => JS.Num (velocity s)) S /\
  Spec.increasing_numbers (map PerformanceChart.x (PerformanceChart.project S "position"))
  = true /\
  Spec.increasing_numbers (map PerformanceChart.x (PerformanceChart.project S "velocity"))
  = true.
Proof.
  intros Hinc.
  rewrite !ChartFacts.increasing_times, !ChartFacts.project_length,
    !ChartFacts.project_x, !ChartFacts.project_y.
  repeat split; assumption.
Qed.

(** The statement above at the Dashboard's own array, whose times increase. *)
Lemma project_one_point_per_sample_sample :
  let S := samplePerformanceData in
  Spec.strictly_increasing (map time S) = true /\
  length (PerformanceChart.project S "position") = length S /\
  length (PerformanceChart.project S "velocity") = length S /\
  map PerformanceChart.x (PerformanceChart.project S "position")
  = map (fun s => JS.Num (time s)) S /\
  map PerformanceChart.x (PerformanceChart.project S "velocity")
  = map PerformanceChart.x (PerformanceChart.project S "position") /\
  map PerformanceChart.y (PerformanceChart.project S "position")
  = map (fun s => JS.Num (position s)) S /\
  map PerformanceChart.y (PerformanceChart.project S "velocity")
  = map (fun s => JS.Num (velocity s)) S /\
  Spec.increasing_numbers (map PerformanceChart.x (PerformanceChart.project S "position"))
  = true /\
  Spec.increasing_numbers (map PerformanceChart.x (PerformanceChart.project S "velocity"))
  = true.
Proof.
  cbv zeta.
  assert (Hinc : Spec.strictly_increasing (map time samplePerformanceData) = true)
    by reflexivity.
  split; [exact Hinc|].
  exact (project_one_point_per_sample samplePerformanceData Hinc).
Defined.

(** C6 (as stated, refuted): projecting the four-sample array on "height"
    raises no InvalidFieldError; it completes normally with four points whose
    y is undefined. *)
Lemma project_height_completes :
  PerformanceChart.valid_dataKey "height" = false /\
  (~ exists e, PerformanceChart.eval_project samplePerformanceData "height" = JS.Throw e) /\
  PerformanceChart.eval_project samplePerformanceData "height"
  = JS.Normal (map (fun s => {| PerformanceChart.x := JS.Num (time s);
                                PerformanceChart.y := JS.Undefined |})
                   samplePerformanceData).
Proof.
  split; [reflexivity|]. split; [| reflexivity].
  intros [e He]. discriminate He.
Qed.

(** C6 (amended): a selector that is neither "position" nor "velocity" raises
    no error at run time: the chart gets one point per sample, in order, with
    x the time, and is styled as a position chart (unit "m", colour #A2AADB).
    Its y is the time for the selector "time", the inherited member for a name
    of [Object.prototype] (such as "constructor"), undefined for every other
    name without "." or "[" (such as "height"), and for a selector with a "."
    or a "[" what the charting library reaches by walking it as a path. *)
Theorem project_unrecognized_field (S : list PerformanceData) (field : string) :
  PerformanceChart.valid_dataKey field = false ->
  exists points : list PerformanceChart.ChartPoint,
    PerformanceChart.eval_project S field = JS.Normal points /\
    length points = length S /\
    map PerformanceChart.x points = map (fun s => JS.Num (time s)) S /\
    (field = "time" ->
     map PerformanceChart.y points = map (fun s => JS.Num (time s)) S) /\
    (field <> "time" -> PerformanceChart.looks_like_path field = false ->
     In field JS.Object_prototype_names ->
     map PerformanceChart.y points = map (fun _ => JS.Member field) S) /\
    (field <> "time" -> PerformanceChart.looks_like_path field = false ->
     ~ In field JS.Object_prototype_names ->
     map PerformanceChart.y points = map (fun _ => JS.Undefined) S) /\
    (PerformanceChart.looks_like_path field = true ->
     map PerformanceChart.y points = map (fun _ => JS.PathValue field) S) /\
    PerformanceChart.unitSuffix field = "m" /\
    PerformanceChart.strokeColor field = "#A2AADB".
Proof.
  intros Hv. exists (PerformanceChart.project S field).
  split; [reflexivity|].
  split; [apply ChartFacts.project_length|].
  split; [apply ChartFacts.project_x|].
  assert (Hy : forall g : PerformanceData -> JS.value,
             (forall s, PerformanceChart.getValueByDataKey s field = g s) ->
             map PerformanceChart.y (PerformanceChart.project S field) = map g S).
  { intros g Hg. rewrite ChartFacts.project_y. apply map_ext, Hg. }
  split; [| split; [| split; [| split]]].
  - intros ->. apply Hy. reflexivity.
  - intros Ht Hpath Hin. apply Hy. intros s.
    rewrite (ChartFacts.getValueByDataKey_unrecognized s field Hv), Hpath.
    apply String.eqb_neq in Ht. rewrite Ht.
    assert (E : existsb (String.eqb field) JS.Object_prototype_names = true).
    { apply existsb_exists. exists field. split; [exact Hin | apply String.eqb_refl]. }
    rewrite E. reflexivity.
  - intros Ht Hpath Hnin. apply Hy. intros s.
    rewrite (ChartFacts.getValueByDataKey_unrecognized s field Hv), Hpath.
    apply String.eqb_neq in Ht. rewrite Ht.
    destruct (existsb (String.eqb field) JS.Object_prototype_names) eqn:E; [| reflexivity].
    apply existsb_exists in E as (name & Hin & Heq).
    apply String.eqb_eq in Heq. subst name. contradiction.
  - intros Hpath. apply Hy. intros s.
    rewrite (ChartFacts.getValueByDataKey_unrecognized s field Hv), Hpath.
    destruct (String.eqb field "time") eqn:Ht; [| reflexivity].
    apply String.eqb_eq in Ht. subst field. discriminate Hpath.
  - unfold PerformanceChart.valid_dataKey in Hv.
    apply orb_false_elim in Hv as [_ Hvel].
    unfold PerformanceChart.unitSuffix, PerformanceChart.strokeColor.
    rewrite Hvel. split; reflexivity.
Qed.

(** The statement above for the selector "height" on the Dashboard's array. *)
Lemma project_unrecognized_field_height :
  PerformanceChart.valid_dataKey "height" = false /\
  exists points : list PerformanceChart.ChartPoint,
    PerformanceChart.eval_project samplePerformanceData "height" = JS.Normal points /\
    length points = length samplePerformanceData /\
    map PerformanceChart.x points = map (fun s => JS.Num (time s)) samplePerformanceData /\
    ("height" = "time" ->
     map PerformanceChart.y points = map (fun s => JS.Num (time s)) samplePerformanceData) /\
    ("height" <> "time" -> PerformanceChart.looks_like_path "height" = false ->
     In "height" JS.Object_prototype_names ->
     map PerformanceChart.y points = map (fun _ => JS.Member "height") samplePerformanceData) /\
    ("height" <> "time" -> PerformanceChart.looks_like_path "height" = false ->
     ~ In "height" JS.Object_prototype_names ->
     map PerformanceChart.y points = map (fun _ => JS.Undefined) samplePerformanceData) /\
    (PerformanceChart.looks_like_path "height" = true ->
     map PerformanceChart.y points = map (fun _ => JS.PathValue "height") samplePerformanceData) /\
    PerformanceChart.unitSuffix "height" = "m" /\
    PerformanceChart.strokeColor "height" = "#A2AADB".
Proof.
  assert (Hv : PerformanceChart.valid_dataKey "height" = false) by reflexivity.
  split; [exact Hv|].
  exact (project_unrecognized_field samplePerformanceData "height" Hv).
Defined.

(* ===================================================================== *)
(** ** Fixed-point formatting                                             *)
(* ===================================================================== *)

Module FormatFacts.







(** *** The numeral reads back as the value, rounded *)












End FormatFacts.




(* ===================================================================== *)
(** ** The upload tracker                                                 *)
(* ===================================================================== *)

Module UploadFacts.
Import Dashboard.

(** Every handler passes to [onUpload] at most the first file of its event,
    and only when its MIME type starts with "video/". *)
Lemma handle_first_file (event : VideoUploadCard.Event) (dragging : bool) :
  VideoUploadCard.onUpload (VideoUploadCard.handle event dragging)
  = VideoUploadCard.uploadIfVideo (Spec.first_file event).
Proof. destruct event as [[files |] | files | |]; reflexivity. Qed.

Lemma dispatch_flags (st : State) (key : string) (event : VideoUploadCard.Event) :
  uploadedVideos (dispatch st (key, event))
  = match VideoUploadCard.uploadIfVideo (Spec.first_file event) with
    | [] => uploadedVideos st
    | _ :: _ => <[key := true]> (uploadedVideos st)
    end.
Proof.
  unfold dispatch. rewrite handle_first_file.
  destruct (Spec.first_file event) as [file |]; cbn [VideoUploadCard.uploadIfVideo];
    [| reflexivity].
  destruct (JS.String_startsWith (VideoUploadCard.type file) "video/"); reflexivity.
Qed.

Lemma dispatch_console (st : State) (key : string) (event : VideoUploadCard.Event) :
  console (dispatch st (key, event))
  = console st ++
    map (fun file => ("Uploading video for " +:+ key +:+ ":", VideoUploadCard.name file))
        (VideoUploadCard.uploadIfVideo (Spec.first_file event)).
Proof.
  unfold dispatch. rewrite handle_first_file.
  destruct (Spec.first_file event) as [file |]; cbn [VideoUploadCard.uploadIfVideo].
  - destruct (JS.String_startsWith (VideoUploadCard.type file) "video/"); cbn;
      [reflexivity | symmetry; apply app_nil_r].
  - cbn. symmetry. apply app_nil_r.
Qed.

End UploadFacts.

(** C7: every flag is false at the start; an event whose first file has a
    MIME type starting with "video/" sets the flag of its key and no other; an
    event whose first file is not a video changes no flag and logs nothing. *)
Theorem upload_tracker_flags (st : Dashboard.State) (key : string)
    (event : VideoUploadCard.Event) (file : VideoUploadCard.File) :
  Spec.first_file event = Some file ->
  (forall k, Dashboard.isUploaded Dashboard.initial k = false) /\
  (JS.String_startsWith (VideoUploadCard.type file) "video/" = true ->
   Dashboard.isUploaded (Dashboard.dispatch st (key, event)) key = true /\
   forall k, k <> key ->
     Dashboard.isUploaded (Dashboard.dispatch st (key, event)) k
     = Dashboard.isUploaded st k) /\
  (JS.String_startsWith (VideoUploadCard.type file) "video/" = false ->
   Dashboard.uploadedVideos (Dashboard.dispatch st (key, event))
   = Dashboard.uploadedVideos st /\
   Dashboard.console (Dashboard.dispatch st (key, event)) = Dashboard.console st /\
   forall k, Dashboard.isUploaded (Dashboard.dispatch st (key, event)) k
             = Dashboard.isUploaded st k).
Proof.
  intros Hfirst. split; [| split].
  - intros k. unfold Dashboard.isUploaded, Dashboard.initial.
    cbn [Dashboard.uploadedVideos]. rewrite lookup_empty. reflexivity.
  - intros Hvideo. unfold Dashboard.isUploaded.
    rewrite UploadFacts.dispatch_flags, Hfirst.
    cbn [VideoUploadCard.uploadIfVideo]. rewrite Hvideo. split.
    + rewrite lookup_insert_eq. reflexivity.
    + intros k Hk. rewrite lookup_insert_ne by congruence. reflexivity.
  - intros Hother. unfold Dashboard.isUploaded.
    rewrite UploadFacts.dispatch_flags, UploadFacts.dispatch_console, Hfirst.
    cbn [VideoUploadCard.uploadIfVideo]. rewrite Hother.
    split; [reflexivity|]. split; [apply app_nil_r | reflexivity].
Qed.

(** The statement above for a dropped video/mp4 file on the card of "25-50". *)
Lemma upload_tracker_flags_mp4 :
  let st := Dashboard.initial in
  let key := "25-50" in
  let event := VideoUploadCard.Drop [Examples.mp4] in
  Spec.first_file event = Some Examples.mp4 /\
  (forall k, Dashboard.isUploaded Dashboard.initial k = false) /\
  (JS.String_startsWith (VideoUploadCard.type Examples.mp4) "video/" = true ->
   Dashboard.isUploaded (Dashboard.dispatch st (key, event)) key = true /\
   forall k, k <> key ->
     Dashboard.isUploaded (Dashboard.dispatch st (key, event)) k
     = Dashboard.isUploaded st k) /\
  (JS.String_startsWith (VideoUploadCard.type Examples.mp4) "video/" = false ->
   Dashboard.uploadedVideos (Dashboard.dispatch st (key, event))
   = Dashboard.uploadedVideos st /\
   Dashboard.console (Dashboard.dispatch st (key, event)) = Dashboard.console st /\
   forall k, Dashboard.isUploaded (Dashboard.dispatch st (key, event)) k
             = Dashboard.isUploaded st k).
Proof.
  cbv zeta.
  assert (Hfirst : Spec.first_file (VideoUploadCard.Drop [Examples.mp4]) = Some Examples.mp4)
    by reflexivity.
  split; [exact Hfirst|].
  exact (upload_tracker_flags Dashboard.initial "25-50" _ Examples.mp4 Hfirst).
Defined.

(** C9: whatever the role and the upload events, the statistics cards and the
    charts are those of the fixed four-sample array, and the "Analysis Time"
    card shows the literal 0.400. *)
Theorem dashboard_analysis_is_fixed (Number_toString : float -> string)
    (userRole : UserRole) (events : list (string * VideoUploadCard.Event)) :
  let view := Dashboard.render Number_toString userRole
                (Dashboard.run events Dashboard.initial) in
  let metrics := computeMetrics samplePerformanceData in
  Dashboard.statsCards view =
  [ {| Dashboard.title := "Max Velocity";
       Dashboard.value := JS.toFixed Number_toString (maxVelocity metrics) 3;
       Dashboard.unit := "m/s"; Dashboard.description := "Peak speed achieved" |};
    {| Dashboard.title := "Avg Velocity";
       Dashboard.value := JS.toFixed Number_toString (avgVelocity metrics) 3;
       Dashboard.unit := "m/s"; Dashboard.description := "Average speed" |};
    {| Dashboard.title := "Total Distance";
       Dashboard.value := JS.toFixed Number_toString (totalDistance metrics) 1;
       Dashboard.unit := "m"; Dashboard.description := "Distance covered" |};
    {| Dashboard.title := "Analysis Time";
       Dashboard.value := "0.400";
       Dashboard.unit := "s"; Dashboard.description := "Total analysis duration" |} ] /\
  map Dashboard.value (Dashboard.statsCards view) = ["0.177"; "0.089"; "0.9"; "0.400"] /\
  map PerformanceChart.data (Dashboard.charts view)
  = [samplePerformanceData; samplePerformanceData] /\
  map PerformanceChart.dataKey (Dashboard.charts view) = ["position"; "velocity"] /\
  Dashboard.statsCards view
  = Dashboard.statsCards (Dashboard.render Number_toString runner Dashboard.initial) /\
  Dashboard.charts view
  = Dashboard.charts (Dashboard.render Number_toString runner Dashboard.initial).
Proof.
  cbv zeta. generalize (Dashboard.run events Dashboard.initial). intros st.
  split; [reflexivity|]. split; [vm_compute; reflexivity|].
  repeat split; reflexivity.
Qed.

(** C10: of the files an event carries only the first is examined: a video
    first file is passed to the upload callback, anything else does nothing
    even when a later file is a video, and an empty list does nothing. *)
Theorem only_first_file_is_examined (dragging : bool)
    (first : VideoUploadCard.File) (later : list VideoUploadCard.File)
    (st : Dashboard.State) (key : string) :
  let expected :=
    if JS.String_startsWith (VideoUploadCard.type first) "video/" then [first] else [] in
  VideoUploadCard.onUpload (VideoUploadCard.handleFileChange (Some (first :: later)) dragging)
  = expected /\
  VideoUploadCard.onUpload (VideoUploadCard.handleDrop (first :: later) dragging)
  = expected /\
  VideoUploadCard.onUpload
    (VideoUploadCard.handleDrop (Examples.txt :: Examples.mp4 :: later) dragging) = [] /\
  VideoUploadCard.onUpload
    (VideoUploadCard.handleFileChange (Some (Examples.txt :: Examples.mp4 :: later)) dragging)
  = [] /\
  VideoUploadCard.onUpload (VideoUploadCard.handleFileChange None dragging) = [] /\
  VideoUploadCard.onUpload (VideoUploadCard.handleFileChange (Some []) dragging) = [] /\
  VideoUploadCard.onUpload (VideoUploadCard.handleDrop [] dragging) = [] /\
  Dashboard.uploadedVideos
    (Dashboard.dispatch st (key, VideoUploadCard.Drop (Examples.txt :: Examples.mp4 :: later)))
  = Dashboard.uploadedVideos st /\
  Dashboard.uploadedVideos (Dashboard.dispatch st (key, VideoUploadCard.Drop []))
  = Dashboard.uploadedVideos st /\
  Dashboard.uploadedVideos (Dashboard.dispatch st (key, VideoUploadCard.Change (Some [])))
  = Dashboard.uploadedVideos st.
Proof.
  cbv zeta. repeat split; try reflexivity;
    rewrite UploadFacts.dispatch_flags; reflexivity.
Qed.

(* ===================================================================== *)
(** ** Sequences of upload events                                         *)
(* ===================================================================== *)

Module TraceFacts.
Import Dashboard.

Lemma uploads_first_file (ev : string * VideoUploadCard.Event) :
  Trace.uploads ev
  = map (pair (fst ev)) (VideoUploadCard.uploadIfVideo (Spec.first_file (snd ev))).
Proof. unfold Trace.uploads. rewrite UploadFacts.handle_first_file. reflexivity. Qed.

(** An event makes no upload, or one, and then for its own key. *)
Lemma uploads_cases (ev : string * VideoUploadCard.Event) :
  Trace.uploads ev = [] \/ exists file, Trace.uploads ev = [(fst ev, file)].
Proof.
  rewrite uploads_first_file.
  destruct (Spec.first_file (snd ev)) as [file |]; cbn [VideoUploadCard.uploadIfVideo];
    [| left; reflexivity].
  destruct (JS.String_startsWith _ _); [right; exists file |left]; reflexivity.
Qed.

Lemma dispatch_uploads (st : State) (ev : string * VideoUploadCard.Event) :
  uploadedVideos (dispatch st ev)
  = fold_left (fun m kf => <[fst kf := true]> m) (Trace.uploads ev) (uploadedVideos st)
  /\ console (dispatch st ev) = console st ++ map Trace.logLine (Trace.uploads ev).
Proof.
  destruct ev as [key event].
  rewrite UploadFacts.dispatch_flags, UploadFacts.dispatch_console, uploads_first_file.
  cbn [fst snd].
  destruct (VideoUploadCard.uploadIfVideo (Spec.first_file event)) as [| f l] eqn:E.
  - split; reflexivity.
  - assert (l = []) as ->.
    { destruct (Spec.first_file event) as [file |]; cbn in E; [| discriminate].
      destruct (JS.String_startsWith _ _); congruence. }
    split; reflexivity.
Qed.

Lemma dispatch_lookup (st : State) (ev : string * VideoUploadCard.Event) (k : string) :
  uploadedVideos (dispatch st ev) !! k
  = if Trace.uploads_to k ev then Some true else uploadedVideos st !! k.
Proof.
  destruct (dispatch_uploads st ev) as [-> _]. unfold Trace.uploads_to.
  destruct (uploads_cases ev) as [-> | [file ->]]; cbn [fold_left existsb fst orb].
  - reflexivity.
  - rewrite orb_false_r. destruct (String.eqb_spec (fst ev) k) as [-> | Hne].
    + apply lookup_insert_eq.
    + apply lookup_insert_ne. exact Hne.
Qed.

Lemma run_cons (ev : string * VideoUploadCard.Event)
    (events : list (string * VideoUploadCard.Event)) (st : State) :
  run (ev :: events) st = run events (dispatch st ev).
Proof. reflexivity. Qed.

Lemma run_lookup (events : list (string * VideoUploadCard.Event)) :
  forall (st : State) (k : string),
    uploadedVideos (run events st) !! k
    = if existsb (Trace.uploads_to k) events then Some true else uploadedVideos st !! k.
Proof.
  induction events as [| ev events IH]; intros st k; [reflexivity|].
  rewrite run_cons, IH, dispatch_lookup. cbn [existsb].
  destruct (Trace.uploads_to k ev), (existsb (Trace.uploads_to k) events); reflexivity.
Qed.

Lemma run_isUploaded (events : list (string * VideoUploadCard.Event))
    (st : State) (k : string) :
  isUploaded (run events st) k
  = isUploaded st k || existsb (Trace.uploads_to k) events.
Proof.
  unfold isUploaded. rewrite run_lookup.
  destruct (existsb (Trace.uploads_to k) events); cbn; [apply eq_sym, orb_true_r|].
  rewrite orb_false_r. reflexivity.
Qed.

Lemma existsb_Permutation {A : Type} (f : A -> bool) (l l' : list A) :
  Permutation l l' -> existsb f l = existsb f l'.
Proof.
  induction 1 as [| x l l' _ IH | x y l | l l' l'' _ IH1 _ IH2]; cbn [existsb].
  - reflexivity.
  - rewrite IH. reflexivity.
  - destruct (f x), (f y); reflexivity.
  - congruence.
Qed.

Lemma dispatch_cards (st : State) (key : string) (event : VideoUploadCard.Event) :
  cards (dispatch st (key, event))
  = <[key := VideoUploadCard.isDragging
               (VideoUploadCard.handle event (Trace.dragging st key))]> (cards st).
Proof.
  unfold dispatch, Trace.dragging.
  set (eff := VideoUploadCard.handle event (default false (cards st !! key))).
  assert (H : VideoUploadCard.onUpload eff = [] \/ exists f, VideoUploadCard.onUpload eff = [f]).
  { unfold eff. rewrite UploadFacts.handle_first_file.
    destruct (Spec.first_file event) as [file |]; cbn; [| left; reflexivity].
    destruct (JS.String_startsWith _ _); [right; exists file | left]; reflexivity. }
  destruct H as [-> | [f ->]]; reflexivity.
Qed.

End TraceFacts.

(** X1: a flag that is set stays set: no sequence of card events brings the
    flag of a key back to false. *)
Theorem uploaded_flag_is_never_cleared (events : list (string * VideoUploadCard.Event))
    (st : Dashboard.State) (k : string) :
  Dashboard.isUploaded st k = true ->
  Dashboard.isUploaded (Dashboard.run events st) k = true.
Proof. intros H. rewrite TraceFacts.run_isUploaded, H. reflexivity. Qed.

(** [uploaded_flag_is_never_cleared] after a video was dropped on "0-25", then
    a text file and a drag-leave arrive on the same card. *)
Lemma uploaded_flag_is_never_cleared_example :
  let st := Dashboard.dispatch Dashboard.initial ("0-25", VideoUploadCard.Drop [Examples.mp4]) in
  let events := [("0-25", VideoUploadCard.Drop [Examples.txt]);
                 ("0-25", VideoUploadCard.DragLeave)] in
  Dashboard.isUploaded st "0-25" = true /\
  Dashboard.isUploaded (Dashboard.run events st) "0-25" = true.
Proof.
  cbv zeta.
  assert (H : Dashboard.isUploaded
                (Dashboard.dispatch Dashboard.initial
                   ("0-25", VideoUploadCard.Drop [Examples.mp4])) "0-25" = true)
    by (vm_compute; reflexivity).
  split; [exact H|].
  exact (uploaded_flag_is_never_cleared _ _ "0-25" H).
Defined.

(** X2: after any sequence of card events, the four cards of the upload tab
    show, in the order of [videoRanges], "uploaded" exactly for the ranges that
    were uploaded before or received an event whose first file is a video. *)
Theorem rendered_upload_flags (Number_toString : float -> string) (userRole : UserRole)
    (events : list (string * VideoUploadCard.Event)) (st : Dashboard.State) :
  map VideoUploadCard.isUploaded
      (Dashboard.uploadCards
         (Dashboard.render Number_toString userRole (Dashboard.run events st)))
  = map (fun r => Dashboard.isUploaded st (key r)
                  || existsb (Trace.uploads_to (key r)) events)
        videoRanges /\
  forall k, Dashboard.isUploaded (Dashboard.run events st) k
            = Dashboard.isUploaded st k || existsb (Trace.uploads_to k) events.
Proof.
  split; [| intros k; apply TraceFacts.run_isUploaded].
  cbn [Dashboard.render Dashboard.uploadCards]. rewrite map_map.
  cbn [VideoUploadCard.isUploaded]. apply map_ext.
  intros r. apply TraceFacts.run_isUploaded.
Qed.

(** X3: the console receives one line per accepted upload, in the order of the
    events, naming the range key and the file; rejected events log nothing. *)
Theorem console_lists_accepted_uploads (events : list (string * VideoUploadCard.Event)) :
  forall st : Dashboard.State,
    Dashboard.console (Dashboard.run events st)
    = Dashboard.console st ++ map Trace.logLine (flat_map Trace.uploads events).
Proof.
  induction events as [| ev events IH]; intros st.
  - cbn. symmetry. apply app_nil_r.
  - rewrite TraceFacts.run_cons, IH.
    destruct (TraceFacts.dispatch_uploads st ev) as [_ ->].
    cbn [flat_map]. rewrite map_app, app_assoc. reflexivity.
Qed.

(** X4: the upload flags do not depend on the order in which the events
    arrive. *)
Theorem upload_flags_order_independent (events events' : list (string * VideoUploadCard.Event))
    (st : Dashboard.State) :
  Permutation events events' ->
  Dashboard.uploadedVideos (Dashboard.run events st)
  = Dashboard.uploadedVideos (Dashboard.run events' st).
Proof.
  intros Hperm. apply map_eq. intros k.
  rewrite !TraceFacts.run_lookup.
  rewrite (TraceFacts.existsb_Permutation _ _ _ Hperm). reflexivity.
Qed.

(** [upload_flags_order_independent] for two uploads in either order. *)
Lemma upload_flags_order_independent_example :
  let a := ("0-25", VideoUploadCard.Drop [Examples.mp4]) in
  let b := ("50-75", VideoUploadCard.Change (Some [Examples.mp4])) in
  Permutation [a; b] [b; a] /\
  Dashboard.uploadedVideos (Dashboard.run [a; b] Dashboard.initial)
  = Dashboard.uploadedVideos (Dashboard.run [b; a] Dashboard.initial).
Proof.
  cbv zeta.
  assert (H : Permutation
                [("0-25", VideoUploadCard.Drop [Examples.mp4]);
                 ("50-75", VideoUploadCard.Change (Some [Examples.mp4]))]
                [("50-75", VideoUploadCard.Change (Some [Examples.mp4]));
                 ("0-25", VideoUploadCard.Drop [Examples.mp4])])
    by apply perm_swap.
  split; [exact H|].
  exact (upload_flags_order_independent _ _ Dashboard.initial H).
Defined.

(** X5: uploading again to a range changes no flag: repeating an event leaves
    the map of flags as the first occurrence left it (only the console grows). *)
Theorem repeated_event_changes_no_flag (st : Dashboard.State)
    (ev : string * VideoUploadCard.Event) :
  Dashboard.uploadedVideos (Dashboard.dispatch (Dashboard.dispatch st ev) ev)
  = Dashboard.uploadedVideos (Dashboard.dispatch st ev).
Proof.
  apply map_eq. intros k. rewrite !TraceFacts.dispatch_lookup.
  destruct (Trace.uploads_to k ev); reflexivity.
Qed.

(** X6: from the initial state the map never holds [false]: a key is either
    absent or mapped to [true], and it is present exactly when an event
    uploaded to it. *)
Theorem flags_map_holds_only_true (events : list (string * VideoUploadCard.Event))
    (k : string) :
  Dashboard.uploadedVideos (Dashboard.run events Dashboard.initial) !! k
  = (if existsb (Trace.uploads_to k) events then Some true else None) /\
  Dashboard.uploadedVideos (Dashboard.run events Dashboard.initial) !! k <> Some false.
Proof.
  rewrite TraceFacts.run_lookup. cbn [Dashboard.initial Dashboard.uploadedVideos].
  rewrite lookup_empty. split; [reflexivity|].
  destruct (existsb (Trace.uploads_to k) events); discriminate.
Qed.

(** X7: the cards are independent: an event on the card of one key changes
    neither the flag nor the dragging state of any other key. *)
Theorem event_leaves_other_cards (st : Dashboard.State) (key k : string)
    (event : VideoUploadCard.Event) :
  k <> key ->
  Dashboard.isUploaded (Dashboard.dispatch st (key, event)) k = Dashboard.isUploaded st k /\
  Trace.dragging (Dashboard.dispatch st (key, event)) k = Trace.dragging st k.
Proof.
  intros Hne. split.
  - unfold Dashboard.isUploaded. rewrite TraceFacts.dispatch_lookup.
    unfold Trace.uploads_to.
    destruct (TraceFacts.uploads_cases (key, event)) as [-> | [file ->]];
      cbn [existsb fst orb]; [reflexivity|].
    destruct (String.eqb_spec key k) as [-> | _]; [congruence | reflexivity].
  - unfold Trace.dragging at 1. rewrite TraceFacts.dispatch_cards.
    rewrite lookup_insert_ne by congruence. reflexivity.
Qed.

(** [event_leaves_other_cards] for a video dropped on "0-25", seen from "25-50". *)
Lemma event_leaves_other_cards_example :
  let st := Dashboard.initial in
  let event := VideoUploadCard.Drop [Examples.mp4] in
  "25-50" <> "0-25" /\
  Dashboard.isUploaded (Dashboard.dispatch st ("0-25", event)) "25-50"
  = Dashboard.isUploaded st "25-50" /\
  Trace.dragging (Dashboard.dispatch st ("0-25", event)) "25-50" = Trace.dragging st "25-50".
Proof.
  cbv zeta.
  assert (H : "25-50" <> "0-25") by discriminate.
  split; [exact H|].
  exact (event_leaves_other_cards Dashboard.initial "0-25" "25-50" _ H).
Defined.

(** X8: the drag highlight of a card is set by a drag-over, cleared by a
    drag-leave and by every drop (accepted or not), and left as it is by a
    file-input change; drop and drag-over are the handlers that call
    [preventDefault]. *)
Theorem drag_highlight (st : Dashboard.State) (key : string)
    (event : VideoUploadCard.Event) :
  Trace.dragging (Dashboard.dispatch st (key, event)) key
  = match event with
    | VideoUploadCard.DragOver => true
    | VideoUploadCard.Drop _ | VideoUploadCard.DragLeave => false
    | VideoUploadCard.Change _ => Trace.dragging st key
    end /\
  VideoUploadCard.defaultPrevented (VideoUploadCard.handle event (Trace.dragging st key))
  = match event with
    | VideoUploadCard.DragOver | VideoUploadCard.Drop _ => true
    | VideoUploadCard.DragLeave | VideoUploadCard.Change _ => false
    end.
Proof.
  split.
  - unfold Trace.dragging at 1. rewrite TraceFacts.dispatch_cards, lookup_insert_eq.
    destruct event; reflexivity.
  - destruct event; reflexivity.
Qed.

(* ===================================================================== *)
(** ** Which files the handlers accept                                    *)
(* ===================================================================== *)

Module AcceptFacts.

Lemma startsWith_iff (search : string) :
  forall s : string,
    JS.String_startsWith s search = true <-> exists rest, s = search +:+ rest.
Proof.
  unfold JS.String_startsWith.
  induction search as [| c search IH]; intros s.
  - destruct s; cbn; (split; [intros _; eexists; reflexivity | reflexivity]).
  - destruct s as [| d s]; cbn [String.prefix].
    + split; [discriminate | intros [rest H]; discriminate H].
    + destruct (ascii_dec c d) as [-> | Hne].
      * rewrite IH. split; intros [rest H]; exists rest.
        -- rewrite H. reflexivity.
        -- simpl in H. injection H as H. exact H.
      * split; [discriminate | intros [rest H]; injection H as Hc _; congruence].
Qed.

End AcceptFacts.

(** X9: a handler passes a file to [onUpload] exactly when it is the first
    file of the event and its MIME type is "video/" followed by anything; it
    makes at most one call per event. *)
Theorem handler_accepts_first_video (event : VideoUploadCard.Event) (dragging : bool)
    (file : VideoUploadCard.File) :
  (In file (VideoUploadCard.onUpload (VideoUploadCard.handle event dragging)) <->
   Spec.first_file event = Some file /\
   exists subtype, VideoUploadCard.type file = "video/" +:+ subtype) /\
  (length (VideoUploadCard.onUpload (VideoUploadCard.handle event dragging)) <= 1)%nat.
Proof.
  rewrite UploadFacts.handle_first_file.
  destruct (Spec.first_file event) as [first |]; cbn [VideoUploadCard.uploadIfVideo].
  - destruct (JS.String_startsWith (VideoUploadCard.type first) "video/") eqn:E.
    + apply AcceptFacts.startsWith_iff in E. split; [| cbn; lia]. split.
      * intros [-> | []]. split; [reflexivity | exact E].
      * intros [[= ->] _]. left; reflexivity.
    + split; [| cbn; lia]. split; [intros [] |].
      intros [[= ->] Hsub]. apply AcceptFacts.startsWith_iff in Hsub. congruence.
  - split; [| cbn; lia]. split; [intros [] | intros [H _]; discriminate H].
Qed.

(* ===================================================================== *)
(** ** NaN and the order of the samples                                   *)
(* ===================================================================== *)

Module NaNFacts.
Import Binary64 Binary64Facts.

Lemma is_nan_eq (x : float) : is_nan x = true -> x = nan.
Proof.
  intros H. apply is_nan_Prim2SF in H. apply Prim2SF_inj. rewrite H. reflexivity.
Qed.

Lemma add_nan_l (a b : float) : is_nan a = true -> is_nan (a + b)%float = true.
Proof.
  intros H. apply is_nan_Prim2SF in H. apply is_nan_Prim2SF.
  rewrite FloatAxioms.add_spec, H. reflexivity.
Qed.

Lemma add_nan_r (a b : float) : is_nan b = true -> is_nan (a + b)%float = true.
Proof.
  intros H. apply is_nan_Prim2SF in H. apply is_nan_Prim2SF.
  rewrite FloatAxioms.add_spec, H. destruct (Prim2SF a); reflexivity.
Qed.

Lemma div_nan_l (a b : float) : is_nan a = true -> is_nan (a / b)%float = true.
Proof.
  intros H. apply is_nan_Prim2SF in H. apply is_nan_Prim2SF.
  rewrite FloatAxioms.div_spec, H. reflexivity.
Qed.

Lemma Math_max_loop_nan (coerced : list float) :
  Exists (fun v => is_nan v = true) coerced ->
  forall highest, JS.Math_max_loop highest coerced = nan.
Proof.
  induction 1 as [number rest Hn | number rest _ IH]; intros highest;
    cbn [JS.Math_max_loop].
  - rewrite Hn. reflexivity.
  - destruct (is_nan number); [reflexivity|].
    destruct (JS.is_pos_zero number && JS.is_neg_zero highest); [apply IH|].
    destruct (highest <? number)%float; apply IH.
Qed.

Lemma sum_from_nan_acc (l : list float) :
  forall acc, is_nan acc = true -> is_nan (Spec.sum_from acc l) = true.
Proof.
  induction l as [| v l IH]; intros acc H; cbn [Spec.sum_from]; [exact H|].
  apply IH, add_nan_l, H.
Qed.

Lemma sum_from_nan (l : list float) :
  Exists (fun v => is_nan v = true) l ->
  forall acc, is_nan (Spec.sum_from acc l) = true.
Proof.
  induction 1 as [v l Hv | v l _ IH]; intros acc; cbn [Spec.sum_from].
  - apply sum_from_nan_acc, add_nan_r, Hv.
  - apply IH.
Qed.

Lemma eqb_value (a b : float) :
  is_nan a = false -> is_nan b = false ->
  (a =? b)%float = (value a =? value b)%Z.
Proof.
  intros Ha Hb. rewrite FloatAxioms.eqb_spec. unfold SFeqb.
  rewrite compare_value by assumption.
  destruct (Z.compare_spec (value a) (value b)) as [E | L | G]; symmetry;
    [apply Z.eqb_eq; exact E | apply Z.eqb_neq; lia | apply Z.eqb_neq; lia].
Qed.

(** The exact value of [Math.max] is the largest among -Infinity and the
    arguments. *)
Lemma Math_max_value_le (l l' : list float) :
  Forall Spec.measured l -> Forall Spec.measured l' ->
  (forall v, In v l -> In v l') ->
  (value (JS.Math_max l) <= value (JS.Math_max l'))%Z.
Proof.
  intros Hl Hl' Hsub. unfold JS.Math_max.
  destruct (MathMaxFacts.Math_max_loop_spec l neg_infinity eq_refl Hl)
    as (_ & Hin & _ & _).
  destruct (MathMaxFacts.Math_max_loop_spec l' neg_infinity eq_refl Hl')
    as (_ & _ & Hlow & Hall).
  cbn zeta in *. destruct Hin as [-> | Hin]; [exact Hlow|].
  rewrite List.Forall_forall in Hall. apply Hall, Hsub, Hin.
Qed.

Lemma Math_max_Permutation (l l' : list float) :
  Forall Spec.measured l -> Permutation l l' ->
  (JS.Math_max l =? JS.Math_max l')%float = true.
Proof.
  intros Hl Hperm.
  assert (Hl' : Forall Spec.measured l').
  { rewrite List.Forall_forall in *. intros v Hv. apply Hl.
    apply Permutation_in with l'; [symmetry; exact Hperm | exact Hv]. }
  destruct (MathMaxFacts.Math_max_value_bound l Hl) as [Hn _].
  destruct (MathMaxFacts.Math_max_value_bound l' Hl') as [Hn' _].
  rewrite eqb_value by assumption. apply Z.eqb_eq, Z.le_antisymm.
  - apply Math_max_value_le; [assumption ..|].
    intros v. apply Permutation_in, Hperm.
  - apply Math_max_value_le; [assumption ..|].
    intros v. apply Permutation_in. symmetry. exact Hperm.
Qed.

End NaNFacts.

(** X10: one sample with a NaN velocity makes both maxVelocity and
    avgVelocity NaN, wherever it stands in the series. *)
Theorem nan_velocity_poisons_metrics (S : list PerformanceData) :
  Exists (fun s => is_nan (velocity s) = true) S ->
  maxVelocity (computeMetrics S) = nan /\ avgVelocity (computeMetrics S) = nan.
Proof.
  intros H. apply (proj2 (List.Exists_map velocity (fun v => is_nan v = true) S)) in H.
  split.
  - apply NaNFacts.Math_max_loop_nan, H.
  - apply NaNFacts.is_nan_eq. rewrite AggregatorFacts.avgVelocity_mean.
    apply NaNFacts.div_nan_l, NaNFacts.sum_from_nan, H.
Qed.

(** [nan_velocity_poisons_metrics] for a NaN between two measured samples. *)
Lemma nan_velocity_poisons_metrics_example :
  let S := [ {| time := 0; position := 0; velocity := 1 |};
             {| time := 1; position := 1; velocity := nan |};
             {| time := 2; position := 2; velocity := 3 |} ]%float in
  Exists (fun s => is_nan (velocity s) = true) S /\
  maxVelocity (computeMetrics S) = nan /\ avgVelocity (computeMetrics S) = nan.
Proof.
  cbv zeta.
  assert (H : Exists (fun s => is_nan (velocity s) = true)
                [ {| time := 0; position := 0; velocity := 1 |};
                  {| time := 1; position := 1; velocity := nan |};
                  {| time := 2; position := 2; velocity := 3 |} ]%float)
    by (apply Exists_cons_tl, Exists_cons_hd; reflexivity).
  split; [exact H|].
  exact (nan_velocity_poisons_metrics _ H).
Defined.

(** X11: maxVelocity and totalDistance do not depend on the order of the
    samples: for measured (non-NaN) values, reordering the series gives results
    that are equal as Numbers ([===]). *)
Theorem max_metrics_order_independent (S S' : list PerformanceData) :
  Forall (fun s => Spec.measured (velocity s)) S ->
  Forall (fun s => Spec.measured (position s)) S ->
  Permutation S S' ->
  (maxVelocity (computeMetrics S) =? maxVelocity (computeMetrics S'))%float = true /\
  (totalDistance (computeMetrics S) =? totalDistance (computeMetrics S'))%float = true.
Proof.
  intros Hv Hp Hperm. split.
  - apply NaNFacts.Math_max_Permutation;
      [apply AggregatorFacts.measured_fields, Hv | apply Permutation_map, Hperm].
  - apply NaNFacts.Math_max_Permutation;
      [apply AggregatorFacts.measured_fields, Hp | apply Permutation_map, Hperm].
Qed.

(** [max_metrics_order_independent] for the Dashboard's array and its reverse. *)
Lemma max_metrics_order_independent_example :
  let S := samplePerformanceData in
  Forall (fun s => Spec.measured (velocity s)) S /\
  Forall (fun s => Spec.measured (position s)) S /\
  Permutation S (rev S) /\
  (maxVelocity (computeMetrics S) =? maxVelocity (computeMetrics (rev S)))%float = true /\
  (totalDistance (computeMetrics S) =? totalDistance (computeMetrics (rev S)))%float = true.
Proof.
  cbv zeta.
  assert (Hv : Forall (fun s => Spec.measured (velocity s)) samplePerformanceData)
    by (repeat constructor).
  assert (Hp : Forall (fun s => Spec.measured (position s)) samplePerformanceData)
    by (repeat constructor).
  assert (Hperm : Permutation samplePerformanceData (rev samplePerformanceData))
    by apply Permutation_rev.
  split; [exact Hv|]. split; [exact Hp|]. split; [exact Hperm|].
  exact (max_metrics_order_independent _ _ Hv Hp Hperm).
Defined.


(* ===================================================================== *)
(** ** The login gate                                                     *)
(* ===================================================================== *)

Module IndexFacts.
Import Index.

Lemma step_keeps_shape (st : State) (event : Event) :
  (isAuthenticated st = true \/ logged_out_shape st) ->
  isAuthenticated (step st event) = true \/ logged_out_shape (step st event).
Proof.
  intros [Ha | Hs]; destruct event as [email password role | | key event]; cbn [step].
  - rewrite Ha. left; exact Ha.
  - rewrite Ha. right. repeat split.
  - rewrite Ha. left; reflexivity.
  - destruct (isAuthenticated st) eqn:E; left; [exact E | reflexivity].
  - destruct (isAuthenticated st) eqn:E; right; [repeat split | exact Hs].
  - destruct (isAuthenticated st) eqn:E; [left; reflexivity | right; exact Hs].
Qed.

Lemma run_keeps_shape (events : list Event) :
  forall st : State,
    (isAuthenticated st = true \/ logged_out_shape st) ->
    isAuthenticated (run events st) = true \/ logged_out_shape (run events st).
Proof.
  induction events as [| event events IH]; intros st H; [exact H|].
  apply IH, step_keeps_shape, H.
Qed.

End IndexFacts.

(** X12: the login form's callback authenticates whatever the e-mail and the
    password are: the page then shows the Dashboard of the chosen role, freshly
    mounted, and the credentials go nowhere but into the console entry, which
    holds the password as typed. *)
Theorem login_accepts_any_credentials (Number_toString : float -> string)
    (st : Index.State) (email password : string) (role : UserRole) :
  Index.isAuthenticated st = false ->
  Index.render Number_toString (Index.step st (Index.Login email password role))
  = Index.DashboardPage
      (Dashboard.render Number_toString role (Index.remount (Index.dashboard st))) /\
  Index.loginAttempts (Index.step st (Index.Login email password role))
  = Index.loginAttempts st ++ [(email, password, role)].
Proof.
  intros H. cbn [Index.step]. rewrite H. split; reflexivity.
Qed.

(** [login_accepts_any_credentials] on the initial page, with empty credentials. *)
Lemma login_accepts_any_credentials_example :
  Index.isAuthenticated Index.initial = false /\
  Index.render Examples.no_toString (Index.step Index.initial (Index.Login "" "" coach))
  = Index.DashboardPage
      (Dashboard.render Examples.no_toString coach
         (Index.remount (Index.dashboard Index.initial))) /\
  Index.loginAttempts (Index.step Index.initial (Index.Login "" "" coach))
  = Index.loginAttempts Index.initial ++ [("", "", coach)].
Proof.
  assert (H : Index.isAuthenticated Index.initial = false) by reflexivity.
  split; [exact H|].
  exact (login_accepts_any_credentials Examples.no_toString Index.initial "" "" coach H).
Defined.

(** X13: after any sequence of logins, logouts and card events, the page is
    either authenticated or back in its initial shape: role 'runner' and a
    Dashboard without any flag or card state. *)
Theorem logged_out_page_is_reset (events : list Index.Event) :
  let st := Index.run events Index.initial in
  Index.isAuthenticated st = true \/
  (Index.userRole st = runner /\
   Dashboard.uploadedVideos (Index.dashboard st) = ∅ /\
   Dashboard.cards (Index.dashboard st) = ∅).
Proof.
  cbv zeta. apply IndexFacts.run_keeps_shape. right. repeat split.
Qed.

(** X14: uploads do not survive a logout: after logging out and in again,
    with any credentials and role, every upload flag reads false, whatever had
    been uploaded before, while the console keeps its lines. *)
Theorem logout_drops_uploads (st : Index.State) (email password : string)
    (role : UserRole) (k : string) :
  Index.isAuthenticated st = true ->
  let st' := Index.run [Index.Logout; Index.Login email password role] st in
  Index.isAuthenticated st' = true /\
  Index.userRole st' = role /\
  Dashboard.isUploaded (Index.dashboard st') k = false /\
  Dashboard.console (Index.dashboard st') = Dashboard.console (Index.dashboard st).
Proof.
  intros H. cbv zeta. cbn [Index.run fold_left Index.step]. rewrite H.
  cbn [Index.handleLogout Index.isAuthenticated Index.handleLogin Index.dashboard
       Index.userRole Index.remount Dashboard.console].
  repeat split.
Qed.

(** [logout_drops_uploads] after a coach uploaded a video for "0-25". *)
Lemma logout_drops_uploads_example :
  let st := Index.run [Index.Login "a@b.c" "pw" coach;
                       Index.Card "0-25" (VideoUploadCard.Drop [Examples.mp4])]
                      Index.initial in
  let st' := Index.run [Index.Logout; Index.Login "x@y.z" "" runner] st in
  Index.isAuthenticated st = true /\
  Dashboard.isUploaded (Index.dashboard st) "0-25" = true /\
  Index.isAuthenticated st' = true /\
  Index.userRole st' = runner /\
  Dashboard.isUploaded (Index.dashboard st') "0-25" = false /\
  Dashboard.console (Index.dashboard st') = Dashboard.console (Index.dashboard st).
Proof.
  cbv zeta.
  assert (H : Index.isAuthenticated
                (Index.run [Index.Login "a@b.c" "pw" coach;
                            Index.Card "0-25" (VideoUploadCard.Drop [Examples.mp4])]
                           Index.initial) = true) by reflexivity.
  split; [exact H|]. split; [vm_compute; reflexivity|].
  exact (logout_drops_uploads _ "x@y.z" "" runner "0-25" H).
Defined.
